(** * Peblar EV charger integration: setup, unload and the select entity

    A shallow embedding of [homeassistant/components/peblar/__init__.py] and
    [homeassistant/components/peblar/select.py].  The coroutines of the
    source are computations in a reader/state/error monad: the reader holds
    the answers of the collaborators (charger, host), the state is the part
    of the host the integration writes to together with the log of the calls
    it makes, and an error is a raised Python exception. *)

From stdpp Require Import gmap strings list.

(** ** Python exceptions *)

(** The exception classes the two modules name or can meet.  [PeblarError]
    is the vendor's base class and stands for every vendor error that is
    neither a connection nor an authentication error; [Exception] stands
    for any exception outside these families. *)
Inductive ExcClass :=
  | PeblarError
  | PeblarConnectionError
  | PeblarAuthenticationError
  | ConfigEntryNotReady
  | ConfigEntryAuthFailed
  | KeyError
  | ValueError
  | AttributeError
  | Exception.

#[global] Instance ExcClass_eq_dec : EqDecision ExcClass.
Proof. solve_decision. Defined.

(** An exception instance: its class and its message; [ExcFrom] is the
    instance made by [raise ... from err], which keeps [err] as its cause. *)
Inductive Exc :=
  | Exc_ (cls : ExcClass) (msg : string)
  | ExcFrom (cls : ExcClass) (msg : string) (cause : Exc).

Definition exc_class (e : Exc) : ExcClass :=
  match e with Exc_ c _ | ExcFrom c _ _ => c end.

Definition exc_cause (e : Exc) : option Exc :=
  match e with Exc_ _ _ => None | ExcFrom _ _ c => Some c end.

(** [issubclass c d]: the vendor's connection and authentication errors
    derive from [PeblarError]; every class derives from [Exception]. *)
Definition issubclass (c d : ExcClass) : bool :=
  bool_decide (c = d)
  || match d with
     | Exception => true
     | PeblarError =>
         bool_decide (c = PeblarConnectionError)
         || bool_decide (c = PeblarAuthenticationError)
     | _ => false
     end.

Definition isinstance (e : Exc) (c : ExcClass) : bool :=
  issubclass (exc_class e) c.

(** What an awaited call yields: a value, or a raised exception. *)
Inductive Outcome (A : Type) :=
  | Return (a : A)
  | Raise (e : Exc).
Arguments Return {A} a.
Arguments Raise {A} e.

Definition is_Return {A} (o : Outcome A) : bool :=
  match o with Return _ => true | Raise _ => false end.

(** ** Vendor data *)

Inductive AccessMode := READ_ONLY | READ_WRITE.

(** [SmartChargingMode]: the string enumeration whose values are the
    options of the select entity. *)
Inductive SmartChargingMode :=
  | DEFAULT
  | FAST_SOLAR
  | PURE_SOLAR
  | SCHEDULED
  | SMART_SOLAR.

Definition SmartChargingMode_members : list SmartChargingMode :=
  [DEFAULT; FAST_SOLAR; PURE_SOLAR; SCHEDULED; SMART_SOLAR].

Definition value (m : SmartChargingMode) : string :=
  match m with
  | DEFAULT => "default"
  | FAST_SOLAR => "fast_solar"
  | PURE_SOLAR => "pure_solar"
  | SCHEDULED => "scheduled"
  | SMART_SOLAR => "smart_solar"
  end.

(** [SmartChargingMode(mode)]: the member whose value is [mode], if any. *)
Definition SmartChargingMode_lookup (mode : string) : option SmartChargingMode :=
  List.find (fun m => String.eqb (value m) mode) SmartChargingMode_members.

(** Truth value of a Python [str]: false exactly for the empty string. *)
Definition str_bool (s : string) : bool := negb (String.eqb s "").

Record PeblarUserConfiguration := {
  smart_charging : option SmartChargingMode;
}.

Record PeblarVersions := {
  firmware : option string;
  customization : option string;
}.

Record PeblarVersionInformation := {
  current : PeblarVersions;
  available : PeblarVersions;
}.

Record PeblarSystemInformation := {
  ethernet_mac_address : string;
  wlan_mac_address : string;
  product_serial_number : string;
  product_vendor_name : string;
  product_number : string;
  product_model_name : string;
}.

(** The [aiohttp] session made for the client, with its cookie jar flag. *)
Record ClientSession := {
  cookie_jar_unsafe : bool;
}.

(** The vendor client, [Peblar(host=..., session=...)]. *)
Record Peblar := {
  host : string;
  session : ClientSession;
}.

(** The handle [peblar.rest_api(...)] returns. *)
Record PeblarApi := {
  api_client : Peblar;
  api_access_mode : AccessMode;
}.

(** ** Host data *)

(** The members of [Platform] the integration forwards to. *)
Inductive Platform :=
  | BINARY_SENSOR
  | BUTTON
  | NUMBER
  | SELECT
  | SENSOR
  | SWITCH
  | UPDATE.

#[global] Instance Platform_eq_dec : EqDecision Platform.
Proof. solve_decision. Defined.

Definition PLATFORMS : list Platform :=
  [BINARY_SENSOR; BUTTON; NUMBER; SELECT; SENSOR; SWITCH; UPDATE].

Inductive EntityCategory := CONFIG | DIAGNOSTIC.

(** The three data coordinators of the integration. *)
Inductive CoordKind := Meter | UserConfig | Version.

#[global] Instance CoordKind_eq_dec : EqDecision CoordKind.
Proof. solve_decision. Defined.

(** Modelled from the spec: the coordinator classes ([coordinator.py] and
    the host's update coordinator) are not under src/.  A coordinator keeps
    the client it polls, the last successfully fetched payload and the
    refresh metadata (whether the last refresh succeeded, and its error). *)
Record Coordinator (C A : Type) := {
  peblar : C;
  data : option A;
  last_update_success : bool;
  last_exception : option Exc;
}.
Arguments peblar {C A} _.
Arguments data {C A} _.
Arguments last_update_success {C A} _.
Arguments last_exception {C A} _.

(** Modelled from the spec: one refresh of a coordinator, given what its
    underlying fetch yielded.  "On success, replaces cached snapshot and
    resets error state; on failure, retains previous snapshot, records the
    error." *)
Definition coordinator_refresh {C A} (c : Coordinator C A) (fetched : Outcome A)
  : Coordinator C A :=
  match fetched with
  | Return a =>
      {| peblar := peblar c; data := Some a;
         last_update_success := true; last_exception := None |}
  | Raise e =>
      {| peblar := peblar c; data := data c;
         last_update_success := false; last_exception := Some e |}
  end.

(** A run of refreshes, oldest fetch first. *)
Definition coordinator_refreshes {C A} (c : Coordinator C A)
  (fetches : list (Outcome A)) : Coordinator C A :=
  fold_left coordinator_refresh fetches c.

(** The payload of the last successful fetch of a run, if there is one. *)
Fixpoint last_good {A} (fetches : list (Outcome A)) : option A :=
  match fetches with
  | [] => None
  | f :: rest =>
      match last_good rest with
      | Some a => Some a
      | None => match f with Return a => Some a | Raise _ => None end
      end
  end.

(** The error of the last fetch of a run, when that fetch failed. *)
Definition last_error {A} (fetches : list (Outcome A)) : option Exc :=
  match last fetches with
  | Some (Raise e) => Some e
  | _ => None
  end.

Section Peblar.

(** Constants and types the two modules import and that are defined
    elsewhere: the integration's [DOMAIN], the device registry's
    [CONNECTION_NETWORK_MAC], the configuration keys [CONF_HOST] and
    [CONF_PASSWORD], and the vendor's telemetry payload. *)
Variable DOMAIN : string.
Variable CONNECTION_NETWORK_MAC : string.
Variable CONF_HOST : string.
Variable CONF_PASSWORD : string.
Variable PeblarMeter : Type.

(** The config entry: [entry.entry_id], [entry.unique_id] and [entry.data]
    (named [entry_data] here, [data] being the coordinator's attribute). *)
Record ConfigEntry := {
  entry_id : string;
  unique_id : option string;
  entry_data : gmap string string;
}.

(** The keyword arguments of [device_registry.async_get_or_create]. *)
Record DeviceEntry := {
  config_entry_id : string;
  configuration_url : string;
  connections : gset (string * string);
  identifiers : gset (string * string);
  manufacturer : string;
  model_id : string;
  model : string;
  name : string;
  serial_number : string;
  sw_version : option string;
}.

(** [PeblarRuntimeData]; the misspelt field name is the source's. *)
Record PeblarRuntimeData := {
  data_coordinator : Coordinator PeblarApi PeblarMeter;
  system_information : PeblarSystemInformation;
  user_configuraton_coordinator : Coordinator Peblar PeblarUserConfiguration;
  version_coordinator : Coordinator Peblar PeblarVersionInformation;
}.

(** The calls made to the collaborators, in the order they are made. *)
Inductive Event :=
  | EvCreateSession (s : ClientSession)
  | EvLogin (p : Peblar) (password : string)
  | EvSystemInformation (p : Peblar)
  | EvRestApi (p : Peblar) (enable : bool) (access_mode : AccessMode)
  | EvConstruct (k : CoordKind)
  | EvFirstRefresh (k : CoordKind)
  | EvSetRuntimeData
  | EvRegisterDevice (d : DeviceEntry)
  | EvForwardSetups (ps : list Platform)
  | EvUnloadPlatforms (ps : list Platform)
  | EvSmartCharging (p : Peblar) (m : SmartChargingMode)
  | EvRequestRefresh (k : CoordKind).

(** The state the integration acts on: the log of its calls (oldest
    first), [entry.runtime_data], the records handed to the device
    registry, the platforms loaded for the entry and the client sessions
    that are open. *)
Record World := {
  trace : list Event;
  runtime_data : option PeblarRuntimeData;
  device_registry : list DeviceEntry;
  loaded_platforms : list Platform;
  sessions : list ClientSession;
}.

Definition add_trace (evs : list Event) (w : World) : World :=
  {| trace := trace w ++ evs; runtime_data := runtime_data w;
     device_registry := device_registry w;
     loaded_platforms := loaded_platforms w; sessions := sessions w |}.

Definition with_runtime_data (rd : PeblarRuntimeData) (w : World) : World :=
  {| trace := trace w; runtime_data := Some rd;
     device_registry := device_registry w;
     loaded_platforms := loaded_platforms w; sessions := sessions w |}.

Definition with_device (d : DeviceEntry) (w : World) : World :=
  {| trace := trace w; runtime_data := runtime_data w;
     device_registry := device_registry w ++ [d];
     loaded_platforms := loaded_platforms w; sessions := sessions w |}.

Definition with_loaded_platforms (ps : list Platform) (w : World) : World :=
  {| trace := trace w; runtime_data := runtime_data w;
     device_registry := device_registry w;
     loaded_platforms := ps; sessions := sessions w |}.

Definition with_session (s : ClientSession) (w : World) : World :=
  {| trace := trace w; runtime_data := runtime_data w;
     device_registry := device_registry w;
     loaded_platforms := loaded_platforms w; sessions := sessions w ++ [s] |}.

(** What the collaborators answer during one run: the charger's replies to
    the vendor client's calls, the instants at which the three first
    refreshes finish, and the host's replies. *)
Record Env := {
  login_result : Outcome unit;
  system_information_result : Outcome PeblarSystemInformation;
  rest_api_result : Outcome unit;
  meter_result : Outcome PeblarMeter;
  user_configuration_result : Outcome PeblarUserConfiguration;
  versions_result : Outcome PeblarVersionInformation;
  finish_time : CoordKind -> nat;
  forward_result : Outcome unit;
  unload_result : Platform -> Outcome bool;
  smart_charging_result : SmartChargingMode -> Outcome unit;
}.

(** ** The monad of coroutines *)

Definition M (A : Type) : Type := Env -> World -> Outcome A * World.

#[local] Instance M_ret : MRet M := fun A a _ w => (Return a, w).

#[local] Instance M_bind : MBind M := fun A B f m env w =>
  match m env w with
  | (Return a, w') => f a env w'
  | (Raise e, w') => (Raise e, w')
  end.

Definition raise {A} (e : Exc) : M A := fun _ w => (Raise e, w).

(** [ask f]: what the collaborator answers, as the result of the call. *)
Definition ask {A} (f : Env -> Outcome A) : M A := fun env w => (f env, w).

Definition log (ev : Event) : M unit := fun _ w =>
  (Return tt, add_trace [ev] w).

(** [try: body except err: handler err]. *)
Definition try_except {A} (body : M A) (handler : Exc -> M A) : M A :=
  fun env w =>
    match body env w with
    | (Return a, w') => (Return a, w')
    | (Raise e, w') => handler e env w'
    end.

(** [d[k]] on a mapping. *)
Definition getitem (d : gmap string string) (k : string) : M string :=
  match d !! k with
  | Some v => mret v
  | None => raise (Exc_ KeyError k)
  end.

(** ** The collaborators' calls *)

Definition async_create_clientsession (unsafe : bool) : M ClientSession :=
  fun _ w =>
    let s := {| cookie_jar_unsafe := unsafe |} in
    (Return s, with_session s (add_trace [EvCreateSession s] w)).

Definition Peblar_login (p : Peblar) (password : string) : M unit :=
  _ ← log (EvLogin p password); ask login_result.

Definition Peblar_system_information (p : Peblar) : M PeblarSystemInformation :=
  _ ← log (EvSystemInformation p); ask system_information_result.

Definition Peblar_rest_api (p : Peblar) (enable : bool) (access_mode : AccessMode)
  : M PeblarApi :=
  _ ← log (EvRestApi p enable access_mode);
  _ ← ask rest_api_result;
  mret {| api_client := p; api_access_mode := access_mode |}.

Definition Peblar_smart_charging (p : Peblar) (m : SmartChargingMode) : M unit :=
  _ ← log (EvSmartCharging p m); ask (fun env => smart_charging_result env m).

(** ** The host's calls *)

Definition get_runtime_data : M PeblarRuntimeData := fun _ w =>
  match runtime_data w with
  | Some rd => (Return rd, w)
  | None => (Raise (Exc_ AttributeError "runtime_data"), w)
  end.

(** [entry.runtime_data = rd]. *)
Definition set_runtime_data (rd : PeblarRuntimeData) : M unit := fun _ w =>
  (Return tt, with_runtime_data rd (add_trace [EvSetRuntimeData] w)).

(** [device_registry.async_get_or_create] with keyword arguments [d]: the
    registry is the host's; what is kept here is the record it was
    handed. *)
Definition async_get_or_create (d : DeviceEntry) : M unit := fun _ w =>
  (Return tt, with_device d (add_trace [EvRegisterDevice d] w)).

Definition set_loaded_platforms (ps : list Platform) : M unit := fun _ w =>
  (Return tt, with_loaded_platforms ps w).

Definition get_loaded_platforms : M (list Platform) := fun _ w =>
  (Return (loaded_platforms w), w).

(** Modelled from the spec: [hass.config_entries.async_forward_entry_setups]
    is the host's.  When it succeeds the platforms it was given are loaded
    for the entry. *)
Definition async_forward_entry_setups (ps : list Platform) : M unit :=
  _ ← log (EvForwardSetups ps);
  _ ← ask forward_result;
  loaded ← get_loaded_platforms;
  set_loaded_platforms (loaded ++ ps).

(** Tear one platform down; a platform torn down is no longer loaded. *)
Definition unload_platform (p : Platform) : M bool :=
  ok ← ask (fun env => unload_result env p);
  loaded ← get_loaded_platforms;
  _ ← set_loaded_platforms
        (if (ok : bool) then filter (fun q => q <> p) loaded else loaded);
  mret ok.

Fixpoint unload_each (ps : list Platform) : M bool :=
  match ps with
  | [] => mret true
  | p :: rest =>
      ok ← unload_platform p;
      oks ← unload_each rest;
      mret (ok && oks)
  end.

(** Modelled from the spec: [hass.config_entries.async_unload_platforms]
    is the host's.  It tears down each platform it is given and answers
    whether all of them were torn down. *)
Definition async_unload_platforms (ps : list Platform) : M bool :=
  _ ← log (EvUnloadPlatforms ps);
  unload_each ps.

(** ** Coordinators in the monad *)

(** Modelled from the spec: constructing a coordinator.  Nothing has been
    fetched yet and no error has been seen. *)
Definition new_coordinator {C A} (k : CoordKind) (client : C) : M (Coordinator C A) :=
  _ ← log (EvConstruct k);
  mret {| peblar := client; data := None;
          last_update_success := true; last_exception := None |}.

Definition PeblarDataUpdateCoordinator (entry : ConfigEntry) (api : PeblarApi)
  : M (Coordinator PeblarApi PeblarMeter) :=
  new_coordinator Meter api.

Definition PeblarUserConfigurationDataUpdateCoordinator (entry : ConfigEntry)
  (p : Peblar) : M (Coordinator Peblar PeblarUserConfiguration) :=
  new_coordinator UserConfig p.

Definition PeblarVersionDataUpdateCoordinator (entry : ConfigEntry) (p : Peblar)
  : M (Coordinator Peblar PeblarVersionInformation) :=
  new_coordinator Version p.

(** Modelled from the spec: the first refresh of a coordinator is a refresh
    whose failure is raised to the caller ("if any required coordinator's
    first refresh fails, setup fails").  The coordinator refreshed by a
    failing first refresh is a local of the setup that raised. *)
Definition async_config_entry_first_refresh {C A} (k : CoordKind)
  (fetch : Env -> Outcome A) (c : Coordinator C A) : M (Coordinator C A) :=
  _ ← log (EvFirstRefresh k);
  fetched ← ask (fun env => Return (fetch env));
  let c' := coordinator_refresh c fetched in
  match last_exception c' with
  | Some e => raise e
  | None => mret c'
  end.

(** The three coordinators a setup holds in its local variables. *)
Definition Coordinators : Type :=
  Coordinator PeblarApi PeblarMeter
  * Coordinator Peblar PeblarUserConfiguration
  * Coordinator Peblar PeblarVersionInformation.

Definition first_refresh_of (k : CoordKind) (cs : Coordinators) : M Coordinators :=
  let '(mc, uc, vc) := cs in
  match k with
  | Meter =>
      mc' ← async_config_entry_first_refresh Meter meter_result mc;
      mret (mc', uc, vc)
  | UserConfig =>
      uc' ← async_config_entry_first_refresh UserConfig user_configuration_result uc;
      mret (mc, uc', vc)
  | Version =>
      vc' ← async_config_entry_first_refresh Version versions_result vc;
      mret (mc, uc, vc')
  end.

(** The order in which awaitables launched together finish: by the instant
    each finishes, and by launch order among those that finish together. *)
Fixpoint insert_by (t : CoordKind -> nat) (k : CoordKind) (l : list CoordKind)
  : list CoordKind :=
  match l with
  | [] => [k]
  | k' :: rest => if t k <? t k' then k :: l else k' :: insert_by t k rest
  end.

Definition completion_order (t : CoordKind -> nat) : list CoordKind :=
  fold_left (fun acc k => insert_by t k acc) [Meter; UserConfig; Version] [].

Fixpoint gather_run (order : list CoordKind) (cs : Coordinators) : M Coordinators :=
  match order with
  | [] => mret cs
  | k :: rest => cs' ← first_refresh_of k cs; gather_run rest cs'
  end.

(** [asyncio.gather] of the three first refreshes: they run interleaved
    and the first exception one of them raises is raised at once to the
    awaiting setup; otherwise the await ends when all three have ended. *)
Definition gather (cs : Coordinators) : M Coordinators := fun env w =>
  gather_run (completion_order (finish_time env)) cs env w.

(** [c.data.current.firmware]. *)
Definition data_current_firmware (c : Coordinator Peblar PeblarVersionInformation)
  : M (option string) :=
  match data c with
  | Some d => mret (firmware (current d))
  | None => raise (Exc_ AttributeError "current")
  end.

(** ** [__init__.py] *)

Definition async_setup_entry (entry : ConfigEntry) : M bool :=
  (* Set up connection to the Peblar charger *)
  h ← getitem (entry_data entry) CONF_HOST;
  s ← async_create_clientsession true;
  let peblar := {| host := h; session := s |} in
  '(system_information, api) ←
    try_except
      (password ← getitem (entry_data entry) CONF_PASSWORD;
       _ ← Peblar_login peblar password;
       system_information ← Peblar_system_information peblar;
       api ← Peblar_rest_api peblar true READ_WRITE;
       mret (system_information, api))
      (fun err =>
         if isinstance err PeblarConnectionError then
           raise (ExcFrom ConfigEntryNotReady
                    "Could not connect to Peblar charger" err)
         else if isinstance err PeblarAuthenticationError then
           raise (ExcFrom ConfigEntryAuthFailed "" err)
         else if isinstance err PeblarError then
           raise (ExcFrom ConfigEntryNotReady
                    "Unknown error occurred while connecting to Peblar charger"
                    err)
         else raise err);
  (* Setup the data coordinators *)
  meter_coordinator ← PeblarDataUpdateCoordinator entry api;
  user_configuration_coordinator ←
    PeblarUserConfigurationDataUpdateCoordinator entry peblar;
  version_coordinator ← PeblarVersionDataUpdateCoordinator entry peblar;
  '(meter_coordinator, user_configuration_coordinator, version_coordinator) ←
    gather (meter_coordinator, user_configuration_coordinator, version_coordinator);
  (* Store the runtime data *)
  _ ← set_runtime_data
        {| data_coordinator := meter_coordinator;
           system_information := system_information;
           user_configuraton_coordinator := user_configuration_coordinator;
           version_coordinator := version_coordinator |};
  (* Setting up the device directly during setup *)
  h' ← getitem (entry_data entry) CONF_HOST;
  fw ← data_current_firmware version_coordinator;
  _ ← async_get_or_create
        {| config_entry_id := entry_id entry;
           configuration_url := "http://" +:+ h';
           connections :=
             {[ (CONNECTION_NETWORK_MAC, ethernet_mac_address system_information);
                (CONNECTION_NETWORK_MAC, wlan_mac_address system_information) ]};
           identifiers := {[ (DOMAIN, product_serial_number system_information) ]};
           manufacturer := product_vendor_name system_information;
           model_id := product_number system_information;
           model := product_model_name system_information;
           name := "Peblar EV Charger";
           serial_number := product_serial_number system_information;
           sw_version := fw |};
  (* Forward the setup to the platforms *)
  _ ← async_forward_entry_setups PLATFORMS;
  mret true.

Definition async_unload_entry (entry : ConfigEntry) : M bool :=
  async_unload_platforms PLATFORMS.

(** ** [select.py] *)

Definition PARALLEL_UPDATES : nat := 1.

Record PeblarSelectEntityDescription := {
  key : string;
  translation_key : string;
  entity_category : EntityCategory;
  options : list string;
  current_fn : PeblarUserConfiguration -> option string;
  select_fn : Peblar -> string -> M unit;
}.

(** [SmartChargingMode(mode)] as a call: a [ValueError] when no member has
    that value. *)
Definition SmartChargingMode_call (mode : string) : M SmartChargingMode :=
  match SmartChargingMode_lookup mode with
  | Some m => mret m
  | None => raise (Exc_ ValueError mode)
  end.

Definition DESCRIPTIONS : list PeblarSelectEntityDescription :=
  [ {| key := "smart_charging";
       translation_key := "smart_charging";
       entity_category := CONFIG;
       options :=
         ["default"; "fast_solar"; "pure_solar"; "scheduled"; "smart_solar"];
       (* lambda x: x.smart_charging.value if x.smart_charging else None *)
       current_fn := fun x =>
         match smart_charging x with
         | Some m => if str_bool (value m) then Some (value m) else None
         | None => None
         end;
       (* lambda x, mode: x.smart_charging(SmartChargingMode(mode)) *)
       select_fn := fun x mode =>
         m ← SmartChargingMode_call mode;
         Peblar_smart_charging x m |} ].

(** The entity; its coordinator is the user-configuration coordinator of
    the entry's runtime data, reached through the state so that the entity
    and the runtime data share it. *)
Record PeblarSelectEntity := {
  entity_description : PeblarSelectEntityDescription;
  _attr_has_entity_name : bool;
  _attr_unique_id : string;
  _attr_device_info : gset (string * string);
}.

(** How an f-string renders an optional string. *)
Definition format_optional (o : option string) : string :=
  match o with Some s => s | None => "None" end.

(** [PeblarSelectEntity.__init__]. *)
Definition PeblarSelectEntity_init (entry : ConfigEntry)
  (description : PeblarSelectEntityDescription) : M PeblarSelectEntity :=
  _ ← get_runtime_data;
  rd ← get_runtime_data;
  mret {| entity_description := description;
          _attr_has_entity_name := true;
          _attr_unique_id :=
            format_optional (unique_id entry) +:+ "-" +:+ key description;
          _attr_device_info :=
            {[ (DOMAIN, product_serial_number (system_information rd)) ]} |}.

Fixpoint for_each {A B} (f : A -> M B) (l : list A) : M (list B) :=
  match l with
  | [] => mret []
  | a :: rest => b ← f a; bs ← for_each f rest; mret (b :: bs)
  end.

(** [async_setup_entry] of [select.py] (the name alone is that of the
    setup of [__init__.py]): the entities handed to [async_add_entities],
    one per description. *)
Definition select_async_setup_entry (entry : ConfigEntry)
  : M (list PeblarSelectEntity) :=
  for_each (PeblarSelectEntity_init entry) DESCRIPTIONS.

(** [self.coordinator]. *)
Definition self_coordinator (self : PeblarSelectEntity)
  : M (Coordinator Peblar PeblarUserConfiguration) :=
  rd ← get_runtime_data;
  mret (user_configuraton_coordinator rd).

(** Modelled from the spec: [async_request_refresh] of the coordinator base
    class is not under src/.  It is the "out-of-band refresh of the owning
    coordinator": one refresh, done now, whose failure is recorded in the
    coordinator and not raised. *)
Definition async_request_refresh : M unit := fun env w =>
  match runtime_data w with
  | None => (Raise (Exc_ AttributeError "runtime_data"), w)
  | Some rd =>
      (Return tt,
       with_runtime_data
         {| data_coordinator := data_coordinator rd;
            system_information := system_information rd;
            user_configuraton_coordinator :=
              coordinator_refresh (user_configuraton_coordinator rd)
                (user_configuration_result env);
            version_coordinator := version_coordinator rd |}
         (add_trace [EvRequestRefresh UserConfig] w))
  end.

(** The property [current_option]. *)
Definition current_option (self : PeblarSelectEntity) : M (option string) :=
  c ← self_coordinator self;
  match data c with
  | Some x => mret (current_fn (entity_description self) x)
  | None => raise (Exc_ AttributeError "smart_charging")
  end.

Definition async_select_option (self : PeblarSelectEntity) (option : string)
  : M unit :=
  c ← self_coordinator self;
  _ ← select_fn (entity_description self) (peblar c) option;
  async_request_refresh.

(** ** Reading a log *)

Definition is_login (ev : Event) : bool :=
  match ev with EvLogin _ _ => true | _ => false end.
Definition is_system_information (ev : Event) : bool :=
  match ev with EvSystemInformation _ => true | _ => false end.
Definition is_rest_api (ev : Event) : bool :=
  match ev with EvRestApi _ _ _ => true | _ => false end.
Definition is_construct (ev : Event) : bool :=
  match ev with EvConstruct _ => true | _ => false end.
Definition is_first_refresh (ev : Event) : bool :=
  match ev with EvFirstRefresh _ => true | _ => false end.
Definition is_first_refresh_of (k : CoordKind) (ev : Event) : bool :=
  match ev with EvFirstRefresh k' => bool_decide (k' = k) | _ => false end.
Definition is_register_device (ev : Event) : bool :=
  match ev with EvRegisterDevice _ => true | _ => false end.
Definition is_forward_setups (ev : Event) : bool :=
  match ev with EvForwardSetups _ => true | _ => false end.
Definition is_smart_charging (ev : Event) : bool :=
  match ev with EvSmartCharging _ _ => true | _ => false end.
Definition is_request_refresh (ev : Event) : bool :=
  match ev with EvRequestRefresh _ => true | _ => false end.

(** How many events of a log satisfy [P]. *)
Definition count (P : Event -> bool) (t : list Event) : nat :=
  length (List.filter P t).

(** Every event satisfying [P] comes before every event satisfying [Q]. *)
Definition all_before (P Q : Event -> bool) (t : list Event) : Prop :=
  forall i j ev1 ev2,
    t !! i = Some ev1 -> t !! j = Some ev2 ->
    P ev1 = true -> Q ev2 = true -> i < j.

(** The three parts of the state a host can see. *)
Definition host_state (w : World)
  : option PeblarRuntimeData * list DeviceEntry * list Platform :=
  (runtime_data w, device_registry w, loaded_platforms w).

(** The exception the [try] block of the setup meets: that of the first of
    its three calls that raises. *)
Definition try_block_exception (env : Env) : option Exc :=
  match login_result env with
  | Raise e => Some e
  | Return _ =>
      match system_information_result env with
      | Raise e => Some e
      | Return _ =>
          match rest_api_result env with
          | Raise e => Some e
          | Return _ => None
          end
      end
  end.

(** The error of the fetch of coordinator [k], when it fails. *)
Definition first_refresh_error (env : Env) (k : CoordKind) : option Exc :=
  match k with
  | Meter => match meter_result env with Raise e => Some e | _ => None end
  | UserConfig =>
      match user_configuration_result env with Raise e => Some e | _ => None end
  | Version => match versions_result env with Raise e => Some e | _ => None end
  end.

(** Whether a first refresh of coordinator [k] succeeds. *)
Definition first_refresh_ok (env : Env) (k : CoordKind) : bool :=
  match k with
  | Meter => is_Return (meter_result env)
  | UserConfig => is_Return (user_configuration_result env)
  | Version => is_Return (versions_result env)
  end.

(** The coordinators after the first refreshes of [order] have all
    succeeded. *)
Definition refresh_kind (env : Env) (k : CoordKind) (cs : Coordinators)
  : Coordinators :=
  let '(mc, uc, vc) := cs in
  match k with
  | Meter => (coordinator_refresh mc (meter_result env), uc, vc)
  | UserConfig => (mc, coordinator_refresh uc (user_configuration_result env), vc)
  | Version => (mc, uc, coordinator_refresh vc (versions_result env))
  end.

Definition refresh_all (env : Env) (order : list CoordKind) (cs : Coordinators)
  : Coordinators :=
  fold_left (fun acc k => refresh_kind env k acc) order cs.

(** The client a setup builds for host [h]. *)
Definition client_of (h : string) : Peblar :=
  {| host := h; session := {| cookie_jar_unsafe := true |} |}.

(** A coordinator that has fetched [a] and nothing else. *)
Definition fresh_with {C A} (client : C) (a : A) : Coordinator C A :=
  {| peblar := client; data := Some a;
     last_update_success := true; last_exception := None |}.

(** The calls of a setup up to the launch of the first refreshes. *)
Definition connect_events (h pw : string) : list Event :=
  [ EvCreateSession {| cookie_jar_unsafe := true |};
    EvLogin (client_of h) pw;
    EvSystemInformation (client_of h);
    EvRestApi (client_of h) true READ_WRITE;
    EvConstruct Meter; EvConstruct UserConfig; EvConstruct Version ].

(** The record a setup hands to the device registry, for host [h],
    system information [si] and version information [v]. *)
Definition device_record (entry : ConfigEntry) (h : string)
  (si : PeblarSystemInformation) (v : PeblarVersionInformation) : DeviceEntry :=
  {| config_entry_id := entry_id entry;
     configuration_url := "http://" +:+ h;
     connections :=
       {[ (CONNECTION_NETWORK_MAC, ethernet_mac_address si);
          (CONNECTION_NETWORK_MAC, wlan_mac_address si) ]};
     identifiers := {[ (DOMAIN, product_serial_number si) ]};
     manufacturer := product_vendor_name si;
     model_id := product_number si;
     model := product_model_name si;
     name := "Peblar EV Charger";
     serial_number := product_serial_number si;
     sw_version := firmware (current v) |}.

(** The runtime data a setup stores. *)
Definition runtime_record (h : string) (si : PeblarSystemInformation)
  (m : PeblarMeter) (u : PeblarUserConfiguration) (v : PeblarVersionInformation)
  : PeblarRuntimeData :=
  {| data_coordinator :=
       fresh_with {| api_client := client_of h; api_access_mode := READ_WRITE |} m;
     system_information := si;
     user_configuraton_coordinator := fresh_with (client_of h) u;
     version_coordinator := fresh_with (client_of h) v |}.

(** The calls of a setup that succeeds, in order. *)
Definition setup_events (entry : ConfigEntry) (env : Env) (h pw : string)
  (si : PeblarSystemInformation) (v : PeblarVersionInformation) : list Event :=
  connect_events h pw
  ++ (EvFirstRefresh <$> completion_order (finish_time env))
  ++ [ EvSetRuntimeData;
       EvRegisterDevice (device_record entry h si v);
       EvForwardSetups PLATFORMS ].

(** The state a setup that succeeds leaves. *)
Definition setup_world (entry : ConfigEntry) (env : Env) (h pw : string)
  (si : PeblarSystemInformation) (m : PeblarMeter)
  (u : PeblarUserConfiguration) (v : PeblarVersionInformation) (w : World)
  : World :=
  {| trace := trace w ++ setup_events entry env h pw si v;
     runtime_data := Some (runtime_record h si m u v);
     device_registry := device_registry w ++ [device_record entry h si v];
     loaded_platforms := loaded_platforms w ++ PLATFORMS;
     sessions := sessions w ++ [{| cookie_jar_unsafe := true |}] |}.

(** The state a setup that raises before it stores the runtime data leaves,
    having made the calls [evs] and opened the sessions [ss]. *)
Definition early_world (evs : list Event) (ss : list ClientSession) (w : World)
  : World :=
  {| trace := trace w ++ evs; runtime_data := runtime_data w;
     device_registry := device_registry w;
     loaded_platforms := loaded_platforms w;
     sessions := sessions w ++ ss |}.

(** The exception a setup raises when its [try] block meets [e], by the
    class of [e]. *)
Definition setup_error (e : Exc) : Exc :=
  match exc_class e with
  | PeblarConnectionError =>
      ExcFrom ConfigEntryNotReady "Could not connect to Peblar charger" e
  | PeblarAuthenticationError => ExcFrom ConfigEntryAuthFailed "" e
  | PeblarError =>
      ExcFrom ConfigEntryNotReady
        "Unknown error occurred while connecting to Peblar charger" e
  | _ => e
  end.

(** The calls that write to the host: storing the runtime data,
    registering the device, forwarding to the platforms. *)
Definition is_host_write (ev : Event) : bool :=
  match ev with
  | EvSetRuntimeData | EvRegisterDevice _ | EvForwardSetups _ => true
  | _ => false
  end.

(** What it is for an unload run from [w] to release the client sessions:
    no session open before the run is open after it. *)
Definition releases_sessions (w w' : World) : Prop :=
  forall s, s ∈ sessions w -> s ∉ sessions w'.

(** The unload as the specification words it: when the teardown of every
    platform succeeds, the unload returns success, leaves none of the
    platforms loaded and releases the client sessions. *)
Definition unload_as_specified (entry : ConfigEntry) (env : Env) (w : World)
  : Prop :=
  (forall p, p ∈ PLATFORMS -> unload_result env p = Return true) ->
  exists w',
    async_unload_entry entry env w = (Return true, w')
    /\ (forall p, p ∈ PLATFORMS -> p ∉ loaded_platforms w')
    /\ releases_sessions w w'.

(** ** Sample inputs *)

Definition sample_entry : ConfigEntry :=
  {| entry_id := "01JF2Z7X";
     unique_id := Some "ABC123";
     entry_data := {[ CONF_HOST := "192.0.2.10"; CONF_PASSWORD := "secret" ]} |}.

Definition sample_system_information : PeblarSystemInformation :=
  {| ethernet_mac_address := "aa:bb:cc:dd:ee:ff";
     wlan_mac_address := "11:22:33:44:55:66";
     product_serial_number := "ABC123";
     product_vendor_name := "Peblar";
     product_number := "6004-2300-8002";
     product_model_name := "WLAC1-H11R0WE0ICR00" |}.

Definition sample_versions : PeblarVersionInformation :=
  {| current := {| firmware := Some "1.6.1"; customization := Some "Peblar-1.9" |};
     available := {| firmware := Some "1.6.2"; customization := Some "Peblar-1.9" |} |}.

(** A run in which every call succeeds; the user configuration finishes
    first, then the versions, then the meter. *)
Definition sample_env (meter : PeblarMeter) : Env :=
  {| login_result := Return tt;
     system_information_result := Return sample_system_information;
     rest_api_result := Return tt;
     meter_result := Return meter;
     user_configuration_result := Return {| smart_charging := Some PURE_SOLAR |};
     versions_result := Return sample_versions;
     finish_time := fun k =>
       match k with Meter => 3 | UserConfig => 1 | Version => 2 end;
     forward_result := Return tt;
     unload_result := fun _ => Return true;
     smart_charging_result := fun _ => Return tt |}.

(** The same run with the calls of the [try] block answering [login],
    [si] and [api]. *)
Definition connect_env (meter : PeblarMeter) (login : Outcome unit)
  (si : Outcome PeblarSystemInformation) (api : Outcome unit) : Env :=
  {| login_result := login;
     system_information_result := si;
     rest_api_result := api;
     meter_result := meter_result (sample_env meter);
     user_configuration_result := user_configuration_result (sample_env meter);
     versions_result := versions_result (sample_env meter);
     finish_time := finish_time (sample_env meter);
     forward_result := forward_result (sample_env meter);
     unload_result := unload_result (sample_env meter);
     smart_charging_result := smart_charging_result (sample_env meter) |}.

(** The same run with the fetches of the user configuration and of the
    versions answering [uc] and [ver], and the write of the smart-charging
    mode answering [write]. *)
Definition fetch_env (meter : PeblarMeter)
  (uc : Outcome PeblarUserConfiguration) (ver : Outcome PeblarVersionInformation)
  (write : Outcome unit) : Env :=
  {| login_result := Return tt;
     system_information_result := Return sample_system_information;
     rest_api_result := Return tt;
     meter_result := Return meter;
     user_configuration_result := uc;
     versions_result := ver;
     finish_time := finish_time (sample_env meter);
     forward_result := Return tt;
     unload_result := fun _ => Return true;
     smart_charging_result := fun _ => write |}.

Definition empty_world : World :=
  {| trace := []; runtime_data := None; device_registry := [];
     loaded_platforms := []; sessions := [] |}.

(** The state after the sample setup. *)
Definition sample_world (meter : PeblarMeter) : World :=
  (async_setup_entry sample_entry (sample_env meter) empty_world).2.

(** The select entity of the sample entry. *)
Definition sample_entity : PeblarSelectEntity :=
  {| entity_description := default
       {| key := ""; translation_key := ""; entity_category := CONFIG;
          options := []; current_fn := fun _ => None;
          select_fn := fun _ _ => mret tt |}
       (head DESCRIPTIONS);
     _attr_has_entity_name := true;
     _attr_unique_id := "ABC123-smart_charging";
     _attr_device_info := {[ (DOMAIN, "ABC123") ]} |}.

(** ** Further readings of a run *)

Definition is_create_session (ev : Event) : bool :=
  match ev with EvCreateSession _ => true | _ => false end.

(** Whether the teardown of platform [p] answers that it succeeded. *)
Definition teardown_ok (env : Env) (p : Platform) : bool :=
  match unload_result env p with Return true => true | _ => false end.


(** A run of select-option calls on one entity, each with its option and
    with the answers of the collaborators during it; a call that raises
    leaves the state it had reached. *)
Fixpoint select_options (self : PeblarSelectEntity)
  (steps : list (string * Env)) (w : World) : World :=
  match steps with
  | [] => w
  | (option, env) :: rest =>
      select_options self rest (async_select_option self option env w).2
  end.

(** ** Further sample inputs *)

(** The sample entry with other data. *)
Definition entry_with (d : gmap string string) : ConfigEntry :=
  {| entry_id := "01JF2Z7X"; unique_id := Some "ABC123"; entry_data := d |}.


(** The sample run with the host answering [forward] to the forwarding and
    [teardown] to the teardown of each platform. *)
Definition host_env (meter : PeblarMeter) (forward : Outcome unit)
  (teardown : Platform -> Outcome bool) : Env :=
  {| login_result := Return tt;
     system_information_result := Return sample_system_information;
     rest_api_result := Return tt;
     meter_result := Return meter;
     user_configuration_result := Return {| smart_charging := Some PURE_SOLAR |};
     versions_result := Return sample_versions;
     finish_time := finish_time (sample_env meter);
     forward_result := forward;
     unload_result := teardown;
     smart_charging_result := fun _ => Return tt |}.

(** The sample run with the system information [si]. *)
Definition system_env (meter : PeblarMeter) (si : PeblarSystemInformation) : Env :=
  connect_env meter (Return tt) (Return si) (Return tt).

(** * Properties *)

(** ** The monad *)

Lemma run_bind {A B} (m : M A) (f : A -> M B) env w :
  (m ≫= f) env w =
  match m env w with
  | (Return a, w') => f a env w'
  | (Raise e, w') => (Raise e, w')
  end.
Proof. reflexivity. Qed.

(** Unfold the operations of the monad in a run. *)
Ltac run_monad :=
  cbv [mbind M_bind mret M_ret ask raise log try_except] in *.

Lemma add_trace_nil w : add_trace [] w = w.
Proof. destruct w; unfold add_trace; simpl. by rewrite app_nil_r. Qed.

Lemma add_trace_app evs1 evs2 w :
  add_trace evs2 (add_trace evs1 w) = add_trace (evs1 ++ evs2) w.
Proof. unfold add_trace; simpl. by rewrite app_assoc. Qed.

Lemma add_trace_early evs1 evs2 ss w :
  add_trace evs2 (early_world evs1 ss w) = early_world (evs1 ++ evs2) ss w.
Proof. unfold add_trace, early_world; simpl. by rewrite app_assoc. Qed.

Lemma host_state_early evs ss w : host_state (early_world evs ss w) = host_state w.
Proof. reflexivity. Qed.

Lemma log_run ev env w : log ev env w = (Return tt, add_trace [ev] w).
Proof. reflexivity. Qed.

(** ** The completion order *)

Lemma insert_by_perm t k l : insert_by t k l ≡ₚ k :: l.
Proof.
  induction l as [|k' l IH]; simpl; [done|].
  destruct (t k <? t k')%nat; [done|].
  rewrite IH. apply Permutation_swap.
Qed.

Lemma completion_order_perm t : completion_order t ≡ₚ [Meter; UserConfig; Version].
Proof.
  cbv [completion_order fold_left].
  rewrite !insert_by_perm.
  exact (Permutation_sym (Permutation_rev [Meter; UserConfig; Version])).
Qed.

Lemma completion_order_all t k : k ∈ completion_order t.
Proof.
  rewrite completion_order_perm, !elem_of_cons. destruct k; auto.
Qed.

Lemma forallb_perm {A} (f : A -> bool) l1 l2 :
  l1 ≡ₚ l2 -> forallb f l1 = forallb f l2.
Proof.
  induction 1 as [|x l l' _ IH|x y l|l l' l'' _ IH1 _ IH2]; simpl.
  - done.
  - by rewrite IH.
  - destruct (f x), (f y); done.
  - congruence.
Qed.

Lemma completion_order_forallb t (f : CoordKind -> bool) :
  forallb f (completion_order t) = f Meter && f UserConfig && f Version.
Proof.
  rewrite (forallb_perm f _ _ (completion_order_perm t)); simpl.
  destruct (f Meter), (f UserConfig), (f Version); done.
Qed.

(** ** The three first refreshes *)

Lemma coordinator_refresh_idem {C A} (c : Coordinator C A) (r : Outcome A) :
  is_Return r = true ->
  coordinator_refresh (coordinator_refresh c r) r = coordinator_refresh c r.
Proof. by destruct r. Qed.

Lemma first_refresh_of_ok env k cs w :
  first_refresh_ok env k = true ->
  first_refresh_of k cs env w
  = (Return (refresh_kind env k cs), add_trace [EvFirstRefresh k] w).
Proof.
  destruct cs as [[mc uc] vc], k; simpl; intros Hok;
    unfold first_refresh_of, async_config_entry_first_refresh; run_monad.
  - destruct (meter_result env); [done | discriminate].
  - destruct (user_configuration_result env); [done | discriminate].
  - destruct (versions_result env); [done | discriminate].
Qed.

Lemma first_refresh_of_fail env k cs w :
  first_refresh_ok env k = false ->
  exists e,
    first_refresh_error env k = Some e
    /\ first_refresh_of k cs env w = (Raise e, add_trace [EvFirstRefresh k] w).
Proof.
  destruct cs as [[mc uc] vc], k; simpl; intros Hok;
    unfold first_refresh_of, async_config_entry_first_refresh; run_monad.
  - destruct (meter_result env) as [|e]; [discriminate | by exists e].
  - destruct (user_configuration_result env) as [|e]; [discriminate | by exists e].
  - destruct (versions_result env) as [|e]; [discriminate | by exists e].
Qed.

Lemma gather_run_ok env order : forall cs w,
  forallb (first_refresh_ok env) order = true ->
  gather_run order cs env w
  = (Return (refresh_all env order cs), add_trace (EvFirstRefresh <$> order) w).
Proof.
  induction order as [|k order IH]; intros cs w Hall; simpl.
  - by rewrite add_trace_nil.
  - simpl in Hall. apply andb_prop in Hall as [Hk Hrest].
    rewrite run_bind, (first_refresh_of_ok _ _ _ _ Hk), (IH _ _ Hrest).
    by rewrite add_trace_app.
Qed.

Lemma gather_run_fail env order : forall cs w,
  forallb (first_refresh_ok env) order = false ->
  exists k e evs,
    first_refresh_error env k = Some e
    /\ gather_run order cs env w = (Raise e, add_trace evs w)
    /\ forallb is_first_refresh evs = true.
Proof.
  induction order as [|k order IH]; intros cs w Hall; simpl in *.
  - discriminate.
  - rewrite run_bind.
    destruct (first_refresh_ok env k) eqn:Hk; simpl in Hall.
    + rewrite (first_refresh_of_ok _ _ _ _ Hk).
      destruct (IH (refresh_kind env k cs) (add_trace [EvFirstRefresh k] w) Hall)
        as (k' & e & evs & He & -> & Hevs).
      exists k', e, (EvFirstRefresh k :: evs). by rewrite add_trace_app.
    + destruct (first_refresh_of_fail env k cs w Hk) as (e & He & ->).
      by exists k, e, [EvFirstRefresh k].
Qed.

Lemma bool_decide_elem_of_head (k : CoordKind) l :
  bool_decide (k ∈ k :: l) = true.
Proof. apply bool_decide_eq_true_2, list_elem_of_here. Qed.

Lemma bool_decide_elem_of_other (k k' : CoordKind) l :
  k <> k' -> bool_decide (k ∈ k' :: l) = bool_decide (k ∈ l).
Proof.
  intros Hne. apply bool_decide_ext. rewrite elem_of_cons.
  split; [intros [Heq | Hin]; [contradiction | exact Hin] | auto].
Qed.

(** When every fetch succeeds, refreshing the coordinators of [order] one
    after the other refreshes each coordinator named in [order]. *)
Lemma refresh_all_members env order : forall mc uc vc,
  forallb (first_refresh_ok env) order = true ->
  refresh_all env order (mc, uc, vc)
  = (if bool_decide (Meter ∈ order)
     then coordinator_refresh mc (meter_result env) else mc,
     if bool_decide (UserConfig ∈ order)
     then coordinator_refresh uc (user_configuration_result env) else uc,
     if bool_decide (Version ∈ order)
     then coordinator_refresh vc (versions_result env) else vc).
Proof.
  induction order as [|k order IH]; intros mc uc vc Hall; [done|].
  simpl in Hall. apply andb_prop in Hall as [Hk Hrest].
  unfold refresh_all in *; simpl.
  destruct k; simpl in Hk; rewrite (IH _ _ _ Hrest);
    rewrite bool_decide_elem_of_head, !bool_decide_elem_of_other by done;
    rewrite (coordinator_refresh_idem _ _ Hk).
  - by destruct (bool_decide (Meter ∈ order)).
  - by destruct (bool_decide (UserConfig ∈ order)).
  - by destruct (bool_decide (Version ∈ order)).
Qed.

Lemma gather_ok env cs w :
  first_refresh_ok env Meter = true ->
  first_refresh_ok env UserConfig = true ->
  first_refresh_ok env Version = true ->
  gather cs env w
  = (Return (refresh_kind env Meter
               (refresh_kind env UserConfig (refresh_kind env Version cs))),
     add_trace (EvFirstRefresh <$> completion_order (finish_time env)) w).
Proof.
  intros Hm Hu Hv. unfold gather.
  assert (Hall : forallb (first_refresh_ok env) (completion_order (finish_time env))
                 = true)
    by (by rewrite completion_order_forallb, Hm, Hu, Hv).
  rewrite (gather_run_ok _ _ _ _ Hall).
  destruct cs as [[mc uc] vc].
  rewrite (refresh_all_members _ _ _ _ _ Hall).
  rewrite !bool_decide_eq_true_2 by apply completion_order_all.
  done.
Qed.

Lemma gather_fail env cs w :
  first_refresh_ok env Meter && first_refresh_ok env UserConfig
  && first_refresh_ok env Version = false ->
  exists k e evs,
    first_refresh_error env k = Some e
    /\ gather cs env w = (Raise e, add_trace evs w)
    /\ forallb is_first_refresh evs = true.
Proof.
  intros Hall. unfold gather. apply gather_run_fail.
  by rewrite completion_order_forallb.
Qed.

(** ** Running the calls *)

Arguments add_trace : simpl never.

Lemma ret_run {A} (a : A) env w : (mret a : M A) env w = (Return a, w).
Proof. reflexivity. Qed.

Lemma try_except_run {A} (body : M A) handler env w :
  try_except body handler env w =
  match body env w with
  | (Return a, w') => (Return a, w')
  | (Raise e, w') => handler e env w'
  end.
Proof. reflexivity. Qed.

Lemma getitem_run d k v :
  d !! k = Some v -> forall env w, getitem d k env w = (Return v, w).
Proof. intros H env w. unfold getitem. by rewrite H. Qed.

Lemma getitem_missing d k :
  d !! k = None ->
  forall env w, getitem d k env w = (Raise (Exc_ KeyError k), w).
Proof. intros H env w. unfold getitem. by rewrite H. Qed.

Lemma async_create_clientsession_run unsafe env w :
  async_create_clientsession unsafe env w
  = (Return {| cookie_jar_unsafe := unsafe |},
     early_world [EvCreateSession {| cookie_jar_unsafe := unsafe |}]
       [{| cookie_jar_unsafe := unsafe |}] w).
Proof. reflexivity. Qed.

Lemma Peblar_login_run p pw env w :
  Peblar_login p pw env w = (login_result env, add_trace [EvLogin p pw] w).
Proof. reflexivity. Qed.

Lemma Peblar_system_information_run p env w :
  Peblar_system_information p env w
  = (system_information_result env, add_trace [EvSystemInformation p] w).
Proof. reflexivity. Qed.

Lemma Peblar_rest_api_run p enable mode env w :
  Peblar_rest_api p enable mode env w
  = (match rest_api_result env with
     | Return _ => Return {| api_client := p; api_access_mode := mode |}
     | Raise e => Raise e
     end, add_trace [EvRestApi p enable mode] w).
Proof.
  unfold Peblar_rest_api. run_monad. by destruct (rest_api_result env).
Qed.

Lemma new_coordinator_run {C A} k (client : C) env w :
  new_coordinator (A:=A) k client env w
  = (Return {| peblar := client; data := None;
               last_update_success := true; last_exception := None |},
     add_trace [EvConstruct k] w).
Proof. reflexivity. Qed.

Lemma set_runtime_data_run rd env w :
  set_runtime_data rd env w
  = (Return tt, with_runtime_data rd (add_trace [EvSetRuntimeData] w)).
Proof. reflexivity. Qed.

Lemma async_get_or_create_run d env w :
  async_get_or_create d env w
  = (Return tt, with_device d (add_trace [EvRegisterDevice d] w)).
Proof. reflexivity. Qed.

Lemma async_forward_entry_setups_run ps env w :
  async_forward_entry_setups ps env w
  = match forward_result env with
    | Return _ =>
        (Return tt,
         with_loaded_platforms (loaded_platforms w ++ ps)
           (add_trace [EvForwardSetups ps] w))
    | Raise e => (Raise e, add_trace [EvForwardSetups ps] w)
    end.
Proof.
  unfold async_forward_entry_setups. run_monad.
  by destruct (forward_result env).
Qed.

Lemma data_current_firmware_run c d :
  data c = Some d ->
  forall env w,
    data_current_firmware c env w = (Return (firmware (current d)), w).
Proof. intros H env w. unfold data_current_firmware. by rewrite H. Qed.

(** ** Running the setup *)

Ltac step_with lem := rewrite run_bind, lem; cbv beta iota zeta.

(** The run of a setup that gets as far as forwarding to the platforms. *)
Lemma setup_run_forward entry env w h pw si m u v :
  entry_data entry !! CONF_HOST = Some h ->
  entry_data entry !! CONF_PASSWORD = Some pw ->
  login_result env = Return tt ->
  system_information_result env = Return si ->
  rest_api_result env = Return tt ->
  meter_result env = Return m ->
  user_configuration_result env = Return u ->
  versions_result env = Return v ->
  async_setup_entry entry env w
  = (match forward_result env with
     | Return _ => Return true
     | Raise e => Raise e
     end,
     {| trace := trace w ++ setup_events entry env h pw si v;
        runtime_data := Some (runtime_record h si m u v);
        device_registry := device_registry w ++ [device_record entry h si v];
        loaded_platforms :=
          if is_Return (forward_result env)
          then loaded_platforms w ++ PLATFORMS else loaded_platforms w;
        sessions := sessions w ++ [{| cookie_jar_unsafe := true |}] |}).
Proof.
  intros Hh Hpw Hlogin Hsi Hapi Hm Hu Hv.
  unfold async_setup_entry.
  step_with (getitem_run _ _ _ Hh).
  step_with async_create_clientsession_run.
  rewrite run_bind, try_except_run.
  step_with (getitem_run _ _ _ Hpw).
  step_with Peblar_login_run. rewrite Hlogin; cbv beta iota.
  step_with Peblar_system_information_run. rewrite Hsi; cbv beta iota.
  step_with Peblar_rest_api_run. rewrite Hapi, ret_run; cbv beta iota.
  unfold PeblarDataUpdateCoordinator,
    PeblarUserConfigurationDataUpdateCoordinator,
    PeblarVersionDataUpdateCoordinator.
  do 3 step_with @new_coordinator_run.
  rewrite run_bind, gather_ok by (simpl; by rewrite ?Hm, ?Hu, ?Hv).
  unfold refresh_kind. rewrite Hm, Hu, Hv. cbv beta iota zeta.
  step_with set_runtime_data_run.
  step_with (getitem_run _ _ _ Hh).
  rewrite run_bind, (data_current_firmware_run _ v) by reflexivity.
  cbv beta iota.
  step_with async_get_or_create_run.
  step_with async_forward_entry_setups_run.
  destruct (forward_result env) as [[]|e]; rewrite ?ret_run;
    cbv [setup_events connect_events add_trace early_world with_runtime_data
         with_device with_loaded_platforms trace runtime_data device_registry
         loaded_platforms sessions is_Return];
    rewrite <- !app_assoc; reflexivity.
Qed.

(** The run of a setup all of whose calls succeed. *)
Lemma setup_run_success entry env w h pw si m u v :
  entry_data entry !! CONF_HOST = Some h ->
  entry_data entry !! CONF_PASSWORD = Some pw ->
  login_result env = Return tt ->
  system_information_result env = Return si ->
  rest_api_result env = Return tt ->
  meter_result env = Return m ->
  user_configuration_result env = Return u ->
  versions_result env = Return v ->
  forward_result env = Return tt ->
  async_setup_entry entry env w
  = (Return true, setup_world entry env h pw si m u v w).
Proof.
  intros Hh Hpw Hlogin Hsi Hapi Hm Hu Hv Hfw.
  rewrite (setup_run_forward _ _ _ _ _ _ _ _ _ Hh Hpw Hlogin Hsi Hapi Hm Hu Hv).
  by rewrite Hfw.
Qed.

Lemma first_refresh_no_host_write evs :
  forallb is_first_refresh evs = true ->
  forallb (fun ev => negb (is_host_write ev)) evs = true.
Proof.
  induction evs as [|ev evs IH]; simpl; [done|].
  intros [Hev Hrest]%andb_prop. rewrite (IH Hrest).
  by destruct ev.
Qed.

(** A setup whose entry has no host raises before any call is made. *)
Lemma setup_run_no_host entry env w :
  entry_data entry !! CONF_HOST = None ->
  async_setup_entry entry env w = (Raise (Exc_ KeyError CONF_HOST), w).
Proof.
  intros Hh. unfold async_setup_entry.
  by rewrite run_bind, (getitem_missing _ _ Hh).
Qed.

(** A setup whose entry has no password raises the [KeyError], which is no
    vendor error, once the session is made. *)
Lemma setup_run_no_password entry env w h :
  entry_data entry !! CONF_HOST = Some h ->
  entry_data entry !! CONF_PASSWORD = None ->
  async_setup_entry entry env w
  = (Raise (Exc_ KeyError CONF_PASSWORD),
     early_world [EvCreateSession {| cookie_jar_unsafe := true |}]
       [{| cookie_jar_unsafe := true |}] w).
Proof.
  intros Hh Hpw. unfold async_setup_entry.
  step_with (getitem_run _ _ _ Hh).
  step_with async_create_clientsession_run.
  rewrite run_bind, try_except_run.
  by rewrite run_bind, (getitem_missing _ _ Hpw).
Qed.

(** The handler of the setup, written with [isinstance], raises
    [setup_error]. *)
Lemma handler_setup_error {A} (e : Exc) env w :
  (if isinstance e PeblarConnectionError then
     raise (ExcFrom ConfigEntryNotReady "Could not connect to Peblar charger" e)
   else if isinstance e PeblarAuthenticationError then
     raise (ExcFrom ConfigEntryAuthFailed "" e)
   else if isinstance e PeblarError then
     raise (ExcFrom ConfigEntryNotReady
              "Unknown error occurred while connecting to Peblar charger" e)
   else raise e : M A) env w
  = (Raise (setup_error e), w).
Proof.
  unfold setup_error, isinstance. by destruct (exc_class e).
Qed.

(** A setup whose [try] block meets [e] raises [setup_error e] and has
    made no call that writes to the host. *)
Lemma setup_run_try_fail entry env w h pw e :
  entry_data entry !! CONF_HOST = Some h ->
  entry_data entry !! CONF_PASSWORD = Some pw ->
  try_block_exception env = Some e ->
  exists evs ss,
    async_setup_entry entry env w
    = (Raise (setup_error e), early_world evs ss w)
    /\ forallb (fun ev => negb (is_host_write ev)) evs = true.
Proof.
  intros Hh Hpw He. unfold async_setup_entry.
  step_with (getitem_run _ _ _ Hh).
  step_with async_create_clientsession_run.
  rewrite run_bind, try_except_run.
  step_with (getitem_run _ _ _ Hpw).
  step_with Peblar_login_run.
  unfold try_block_exception in He.
  destruct (login_result env) as [[]|e1]; cbv beta iota.
  2:{ injection He as ->. rewrite handler_setup_error, !add_trace_early.
      do 2 eexists; split; [reflexivity | done]. }
  step_with Peblar_system_information_run.
  destruct (system_information_result env) as [si|e2]; cbv beta iota.
  2:{ injection He as ->. rewrite handler_setup_error, !add_trace_early.
      do 2 eexists; split; [reflexivity | done]. }
  step_with Peblar_rest_api_run.
  destruct (rest_api_result env) as [[]|e3]; [discriminate|].
  injection He as ->. cbv beta iota.
  rewrite handler_setup_error, !add_trace_early.
  do 2 eexists; split; [reflexivity | done].
Qed.

Lemma try_block_exception_None env :
  try_block_exception env = None ->
  login_result env = Return tt
  /\ (exists si, system_information_result env = Return si)
  /\ rest_api_result env = Return tt.
Proof.
  unfold try_block_exception.
  destruct (login_result env) as [[]|]; [|discriminate].
  destruct (system_information_result env) as [si|]; [|discriminate].
  destruct (rest_api_result env) as [[]|]; [|discriminate].
  eauto.
Qed.

(** A setup one of whose first refreshes fails raises and has made no call
    that writes to the host. *)
Lemma setup_run_refresh_fail entry env w h pw :
  entry_data entry !! CONF_HOST = Some h ->
  entry_data entry !! CONF_PASSWORD = Some pw ->
  try_block_exception env = None ->
  first_refresh_ok env Meter && first_refresh_ok env UserConfig
  && first_refresh_ok env Version = false ->
  exists k e evs ss,
    first_refresh_error env k = Some e
    /\ async_setup_entry entry env w = (Raise e, early_world evs ss w)
    /\ forallb (fun ev => negb (is_host_write ev)) evs = true.
Proof.
  intros Hh Hpw (Hlogin & [si Hsi] & Hapi)%try_block_exception_None Hfail.
  unfold async_setup_entry.
  step_with (getitem_run _ _ _ Hh).
  step_with async_create_clientsession_run.
  rewrite run_bind, try_except_run.
  step_with (getitem_run _ _ _ Hpw).
  step_with Peblar_login_run. rewrite Hlogin; cbv beta iota.
  step_with Peblar_system_information_run. rewrite Hsi; cbv beta iota.
  step_with Peblar_rest_api_run. rewrite Hapi, ret_run; cbv beta iota.
  unfold PeblarDataUpdateCoordinator,
    PeblarUserConfigurationDataUpdateCoordinator,
    PeblarVersionDataUpdateCoordinator.
  do 3 step_with @new_coordinator_run.
  rewrite run_bind.
  match goal with
  | |- context [gather ?cs env ?w0] =>
      destruct (gather_fail env cs w0 Hfail) as (k & e & evs & He & -> & Hevs)
  end.
  rewrite !add_trace_early. exists k, e.
  do 2 eexists; split; [exact He|]. split; [reflexivity|].
  simpl. by apply first_refresh_no_host_write.
Qed.

(** Every call of a setup that returns has succeeded, and the state it
    leaves is [setup_world]. *)
Lemma setup_success_inv entry env w b w' :
  async_setup_entry entry env w = (Return b, w') ->
  exists h pw si m u v,
    entry_data entry !! CONF_HOST = Some h
    /\ entry_data entry !! CONF_PASSWORD = Some pw
    /\ login_result env = Return tt
    /\ system_information_result env = Return si
    /\ rest_api_result env = Return tt
    /\ meter_result env = Return m
    /\ user_configuration_result env = Return u
    /\ versions_result env = Return v
    /\ forward_result env = Return tt
    /\ b = true
    /\ w' = setup_world entry env h pw si m u v w.
Proof.
  intros Hrun.
  destruct (entry_data entry !! CONF_HOST) as [h|] eqn:Hh;
    [|by rewrite (setup_run_no_host _ _ _ Hh) in Hrun].
  destruct (entry_data entry !! CONF_PASSWORD) as [pw|] eqn:Hpw;
    [|by rewrite (setup_run_no_password _ _ _ _ Hh Hpw) in Hrun].
  destruct (try_block_exception env) as [e|] eqn:Htry.
  { destruct (setup_run_try_fail _ _ w _ _ _ Hh Hpw Htry) as (evs & ss & Heq & _).
    by rewrite Heq in Hrun. }
  destruct (first_refresh_ok env Meter && first_refresh_ok env UserConfig
            && first_refresh_ok env Version) eqn:Hok.
  2:{ destruct (setup_run_refresh_fail _ _ w _ _ Hh Hpw Htry Hok)
        as (k & e & evs & ss & _ & Heq & _).
      by rewrite Heq in Hrun. }
  apply try_block_exception_None in Htry as (Hlogin & [si Hsi] & Hapi).
  apply andb_prop in Hok as [[Hm Hu]%andb_prop Hv]. simpl in Hm, Hu, Hv.
  destruct (meter_result env) as [m|] eqn:Em; [|discriminate].
  destruct (user_configuration_result env) as [u|] eqn:Eu; [|discriminate].
  destruct (versions_result env) as [v|] eqn:Ev; [|discriminate].
  rewrite (setup_run_forward _ _ _ _ _ _ _ _ _ Hh Hpw Hlogin Hsi Hapi Em Eu Ev)
    in Hrun.
  destruct (forward_result env) as [[]|e] eqn:Efw; [|discriminate].
  injection Hrun as <- <-.
  exists h, pw, si, m, u, v. by repeat split.
Qed.

(** ** Reading the log of a setup *)

Lemma count_app P l1 l2 : count P (l1 ++ l2) = count P l1 + count P l2.
Proof. unfold count. by rewrite List.filter_app, length_app. Qed.

Lemma count_perm P l1 l2 : l1 ≡ₚ l2 -> count P l1 = count P l2.
Proof.
  unfold count.
  induction 1 as [|x l l' _ IH|x y l|l l' l'' _ IH1 _ IH2]; simpl.
  - done.
  - destruct (P x); simpl; by rewrite IH.
  - by destruct (P x), (P y).
  - congruence.
Qed.

Lemma forallb_lookup {A} (f : A -> bool) l i x :
  forallb f l = true -> l !! i = Some x -> f x = true.
Proof.
  revert i. induction l as [|y l IH]; intros [|i]; simpl; try done.
  - intros [Hy _]%andb_prop [= ->]. exact Hy.
  - intros [_ Hl]%andb_prop. by apply IH.
Qed.

(** A log cut in two, with no [Q] before the cut and no [P] after it, has
    every [P] before every [Q]. *)
Lemma all_before_split P Q l1 l2 :
  forallb (fun ev => negb (Q ev)) l1 = true ->
  forallb (fun ev => negb (P ev)) l2 = true ->
  all_before P Q (l1 ++ l2).
Proof.
  intros H1 H2 i j ev1 ev2 Hi Hj HP HQ.
  destruct (decide (j < length l1)) as [Hlt|Hge].
  { rewrite lookup_app_l in Hj by done.
    pose proof (forallb_lookup _ _ _ _ H1 Hj) as Hn.
    cbv beta in Hn. by rewrite HQ in Hn. }
  destruct (decide (i < length l1)) as [Hlt|Hge']; [lia|].
  rewrite lookup_app_r in Hi by lia.
  pose proof (forallb_lookup _ _ _ _ H2 Hi) as Hn.
  cbv beta in Hn. by rewrite HP in Hn.
Qed.

Lemma forallb_first_refreshes (f : Event -> bool) order :
  (forall k, f (EvFirstRefresh k) = true) ->
  forallb f (EvFirstRefresh <$> order) = true.
Proof.
  intros Hf. induction order as [|k order IH]; [done|].
  rewrite fmap_cons. cbn [forallb]. by rewrite Hf, IH.
Qed.

Lemma count_setup_events P entry env h pw si v :
  count P (setup_events entry env h pw si v)
  = count P (connect_events h pw)
    + count P (EvFirstRefresh <$> [Meter; UserConfig; Version])
    + count P [ EvSetRuntimeData; EvRegisterDevice (device_record entry h si v);
                EvForwardSetups PLATFORMS ].
Proof.
  unfold setup_events. rewrite !count_app.
  rewrite (count_perm P (EvFirstRefresh <$> completion_order (finish_time env))
             (EvFirstRefresh <$> [Meter; UserConfig; Version]))
    by apply fmap_Permutation, completion_order_perm.
  lia.
Qed.

(** In the log of a setup that succeeds, every event up to and including
    the [n]-th call of the connection phase comes before the others. *)
Lemma setup_events_before_connect P Q entry env h pw si v n :
  forallb (fun ev => negb (Q ev)) (take n (connect_events h pw)) = true ->
  forallb (fun ev => negb (P ev)) (drop n (connect_events h pw)) = true ->
  (forall k, P (EvFirstRefresh k) = false) ->
  forallb (fun ev => negb (P ev))
    [ EvSetRuntimeData; EvRegisterDevice (device_record entry h si v);
      EvForwardSetups PLATFORMS ] = true ->
  all_before P Q (setup_events entry env h pw si v).
Proof.
  intros H1 H2 H3 H4. unfold setup_events.
  rewrite <- (take_drop n (connect_events h pw)), <- app_assoc.
  apply all_before_split; [done|].
  rewrite !forallb_app, H2, H4, forallb_first_refreshes; [done|].
  intros k. by rewrite H3.
Qed.

(** In that log, the events of the connection phase, the first refreshes
    and the first [n] of the three last calls come before the others. *)
Lemma setup_events_before_tail P Q entry env h pw si v n :
  forallb (fun ev => negb (Q ev)) (connect_events h pw) = true ->
  (forall k, Q (EvFirstRefresh k) = false) ->
  forallb (fun ev => negb (Q ev))
    (take n [ EvSetRuntimeData; EvRegisterDevice (device_record entry h si v);
              EvForwardSetups PLATFORMS ]) = true ->
  forallb (fun ev => negb (P ev))
    (drop n [ EvSetRuntimeData; EvRegisterDevice (device_record entry h si v);
              EvForwardSetups PLATFORMS ]) = true ->
  all_before P Q (setup_events entry env h pw si v).
Proof.
  intros H1 H2 H3 H4. unfold setup_events.
  rewrite <- (take_drop n [EvSetRuntimeData; _; _]), !app_assoc.
  apply all_before_split; [|done].
  rewrite !forallb_app, H1, H3, forallb_first_refreshes; [done|].
  intros k. by rewrite H2.
Qed.

(** ** The setup: classification of errors *)

(** C1.  Whatever call of the [try] block raises first, a vendor connection
    error makes the setup raise [ConfigEntryNotReady], a vendor
    authentication error makes it raise [ConfigEntryAuthFailed], and any
    other vendor error makes it raise [ConfigEntryNotReady]; the vendor
    error is kept as the cause. *)
Theorem setup_error_taxonomy entry env w h pw e :
  entry_data entry !! CONF_HOST = Some h ->
  entry_data entry !! CONF_PASSWORD = Some pw ->
  try_block_exception env = Some e ->
  (exc_class e = PeblarConnectionError ->
   (async_setup_entry entry env w).1
   = Raise (ExcFrom ConfigEntryNotReady "Could not connect to Peblar charger" e))
  /\ (exc_class e = PeblarAuthenticationError ->
      (async_setup_entry entry env w).1
      = Raise (ExcFrom ConfigEntryAuthFailed "" e))
  /\ (exc_class e = PeblarError ->
      (async_setup_entry entry env w).1
      = Raise (ExcFrom ConfigEntryNotReady
                 "Unknown error occurred while connecting to Peblar charger" e)).
Proof.
  intros Hh Hpw He.
  destruct (setup_run_try_fail entry env w h pw e Hh Hpw He)
    as (evs & ss & -> & _).
  unfold setup_error; simpl.
  repeat split; intros ->; reflexivity.
Qed.

(** ** The setup: the three first refreshes *)

(** C2.  If the first refresh of any of the three coordinators fails, the
    setup raises, and when the first refreshes were launched it raises the
    error of a failing fetch; a setup that returns has had all three first
    refreshes succeed. *)
Theorem first_refresh_failure_fails_setup entry env w :
  (forall k, first_refresh_ok env k = false ->
     exists e,
       (async_setup_entry entry env w).1 = Raise e
       /\ (is_Some (entry_data entry !! CONF_HOST) ->
           is_Some (entry_data entry !! CONF_PASSWORD) ->
           try_block_exception env = None ->
           exists k', first_refresh_error env k' = Some e))
  /\ (forall b, (async_setup_entry entry env w).1 = Return b ->
        forall k, first_refresh_ok env k = true).
Proof.
  split.
  - intros k Hk.
    assert (Hfail : first_refresh_ok env Meter && first_refresh_ok env UserConfig
                    && first_refresh_ok env Version = false).
    { destruct k; rewrite Hk; by repeat destruct (first_refresh_ok env _). }
    destruct (entry_data entry !! CONF_HOST) as [h|] eqn:Hh.
    2:{ rewrite (setup_run_no_host _ _ _ Hh). eexists; split; [done|].
        by intros [? [=]]. }
    destruct (entry_data entry !! CONF_PASSWORD) as [pw|] eqn:Hpw.
    2:{ rewrite (setup_run_no_password _ _ _ _ Hh Hpw). eexists; split; [done|].
        by intros _ [? [=]]. }
    destruct (try_block_exception env) as [e|] eqn:Htry.
    { destruct (setup_run_try_fail _ _ w _ _ _ Hh Hpw Htry)
        as (evs & ss & -> & _).
      eexists; split; [done|]. by intros _ _ [=]. }
    destruct (setup_run_refresh_fail _ _ w _ _ Hh Hpw Htry Hfail)
      as (k' & e & evs & ss & He & -> & _).
    exists e; split; [done|]. intros _ _ _. by exists k'.
  - intros b Hb k.
    destruct (async_setup_entry entry env w) as [r w'] eqn:Hrun.
    simpl in Hb; subst r.
    apply setup_success_inv in Hrun
      as (h & pw & si & m & u & v & _ & _ & _ & _ & _ & Hm & Hu & Hv & _).
    destruct k; simpl; by rewrite ?Hm, ?Hu, ?Hv.
Qed.

(** ** The setup: the device record *)

(** C5.  A setup that returns has fetched the system information once and
    has handed one record to the device registry; the identifiers of
    that record are the one pair of the domain and the serial number, and
    its connections are exactly the Ethernet and the WLAN MAC addresses of
    that system information, each tagged as a network MAC. *)
Theorem device_record_from_system_information entry env w b w' :
  async_setup_entry entry env w = (Return b, w') ->
  exists si d evs,
    system_information_result env = Return si
    /\ trace w' = trace w ++ evs
    /\ count is_system_information evs = 1
    /\ device_registry w' = device_registry w ++ [d]
    /\ identifiers d = {[ (DOMAIN, product_serial_number si) ]}
    /\ connections d
       = {[ (CONNECTION_NETWORK_MAC, ethernet_mac_address si);
            (CONNECTION_NETWORK_MAC, wlan_mac_address si) ]}
    /\ (forall c, c ∈ connections d <->
          c = (CONNECTION_NETWORK_MAC, ethernet_mac_address si)
          \/ c = (CONNECTION_NETWORK_MAC, wlan_mac_address si)).
Proof.
  intros Hrun.
  apply setup_success_inv in Hrun
    as (h & pw & si & m & u & v & _ & _ & _ & Hsi & _ & _ & _ & _ & _ & _ & ->).
  exists si, (device_record entry h si v), (setup_events entry env h pw si v).
  repeat split; try done.
  - by rewrite count_setup_events.
  - simpl. rewrite elem_of_union, !elem_of_singleton. tauto.
  - simpl. rewrite elem_of_union, !elem_of_singleton. tauto.
Qed.

(** ** The setup: the order of the steps *)

(** C6.  In the log of a setup that returns: the login comes before the
    fetch of the system information and the enabling of the REST API, and
    these three before the construction of any coordinator; each
    coordinator is refreshed once, before the device is registered; the
    device is registered once, before the platforms are set up. *)
Theorem setup_steps_in_order entry env w b w' :
  async_setup_entry entry env w = (Return b, w') ->
  exists evs,
    trace w' = trace w ++ evs
    /\ count is_login evs = 1
    /\ count is_system_information evs = 1
    /\ count is_rest_api evs = 1
    /\ count is_construct evs = 3
    /\ (forall k, count (is_first_refresh_of k) evs = 1)
    /\ count is_register_device evs = 1
    /\ count is_forward_setups evs = 1
    /\ all_before is_login is_system_information evs
    /\ all_before is_login is_rest_api evs
    /\ all_before is_login is_construct evs
    /\ all_before is_system_information is_construct evs
    /\ all_before is_rest_api is_construct evs
    /\ all_before is_construct is_first_refresh evs
    /\ all_before is_first_refresh is_register_device evs
    /\ all_before is_register_device is_forward_setups evs.
Proof.
  intros Hrun.
  apply setup_success_inv in Hrun
    as (h & pw & si & m & u & v & _ & _ & _ & _ & _ & _ & _ & _ & _ & _ & ->).
  exists (setup_events entry env h pw si v).
  split; [done|].
  repeat split; try (by rewrite count_setup_events).
  - intros k. rewrite count_setup_events. by destruct k.
  - by apply (setup_events_before_connect _ _ _ _ _ _ _ _ 2).
  - by apply (setup_events_before_connect _ _ _ _ _ _ _ _ 2).
  - by apply (setup_events_before_connect _ _ _ _ _ _ _ _ 2).
  - by apply (setup_events_before_connect _ _ _ _ _ _ _ _ 4).
  - by apply (setup_events_before_connect _ _ _ _ _ _ _ _ 4).
  - by apply (setup_events_before_connect _ _ _ _ _ _ _ _ 7).
  - by apply (setup_events_before_tail _ _ _ _ _ _ _ _ 1).
  - by apply (setup_events_before_tail _ _ _ _ _ _ _ _ 2).
Qed.

(** ** The setup: failures *)

(** C10.  A setup in which the login, the fetch of the system information,
    the enabling of the REST API or a first refresh fails raises without
    having stored the runtime data, registered a device or set up the
    platforms: these three parts of the state are as they were and the log
    has no such call. *)
Theorem failed_setup_leaves_host_untouched entry env w :
  try_block_exception env <> None
  \/ (exists k, first_refresh_ok env k = false) ->
  exists e w' evs,
    async_setup_entry entry env w = (Raise e, w')
    /\ runtime_data w' = runtime_data w
    /\ device_registry w' = device_registry w
    /\ loaded_platforms w' = loaded_platforms w
    /\ trace w' = trace w ++ evs
    /\ forallb (fun ev => negb (is_host_write ev)) evs = true.
Proof.
  intros Hfail.
  destruct (entry_data entry !! CONF_HOST) as [h|] eqn:Hh.
  2:{ rewrite (setup_run_no_host _ _ _ Hh).
      exists (Exc_ KeyError CONF_HOST), w, []. by rewrite app_nil_r. }
  destruct (entry_data entry !! CONF_PASSWORD) as [pw|] eqn:Hpw.
  2:{ rewrite (setup_run_no_password _ _ _ _ Hh Hpw).
      by eexists _, _, [_]. }
  destruct (try_block_exception env) as [e|] eqn:Htry.
  { destruct (setup_run_try_fail _ _ w _ _ _ Hh Hpw Htry)
      as (evs & ss & -> & Hevs).
    by exists (setup_error e), (early_world evs ss w), evs. }
  destruct Hfail as [Hne | [k Hk]]; [done|].
  assert (Hall : first_refresh_ok env Meter && first_refresh_ok env UserConfig
                 && first_refresh_ok env Version = false).
  { destruct k; rewrite Hk; by repeat destruct (first_refresh_ok env _). }
  destruct (setup_run_refresh_fail _ _ w _ _ Hh Hpw Htry Hall)
    as (k' & e & evs & ss & _ & -> & Hevs).
  by exists e, (early_world evs ss w), evs.
Qed.

(** A setup that fails later, when it forwards to the platforms, has
    stored the runtime data and registered the device. *)
Remark failed_forward_keeps_runtime_data entry env w h pw si m u v e :
  entry_data entry !! CONF_HOST = Some h ->
  entry_data entry !! CONF_PASSWORD = Some pw ->
  login_result env = Return tt ->
  system_information_result env = Return si ->
  rest_api_result env = Return tt ->
  meter_result env = Return m ->
  user_configuration_result env = Return u ->
  versions_result env = Return v ->
  forward_result env = Raise e ->
  exists w',
    async_setup_entry entry env w = (Raise e, w')
    /\ runtime_data w' = Some (runtime_record h si m u v)
    /\ device_registry w' = device_registry w ++ [device_record entry h si v]
    /\ loaded_platforms w' = loaded_platforms w.
Proof.
  intros Hh Hpw Hlogin Hsi Hapi Hm Hu Hv Hfw.
  rewrite (setup_run_forward _ _ _ _ _ _ _ _ _ Hh Hpw Hlogin Hsi Hapi Hm Hu Hv).
  rewrite Hfw. by eexists.
Qed.

(** ** The select entity *)

Lemma SmartChargingMode_lookup_value m :
  SmartChargingMode_lookup (value m) = Some m.
Proof. by destruct m. Qed.

Lemma SmartChargingMode_lookup_Some mode m :
  SmartChargingMode_lookup mode = Some m -> value m = mode.
Proof.
  unfold SmartChargingMode_lookup. intros H.
  apply find_some in H as [_ H]. by apply String.eqb_eq in H.
Qed.

Lemma str_bool_value m : str_bool (value m) = true.
Proof. by destruct m. Qed.

Lemma DESCRIPTIONS_inv d :
  d ∈ DESCRIPTIONS ->
  (forall x, current_fn d x = value <$> smart_charging x)
  /\ (forall p mode,
        select_fn d p mode
        = (m ← SmartChargingMode_call mode; Peblar_smart_charging p m))
  /\ options d = value <$> SmartChargingMode_members.
Proof.
  unfold DESCRIPTIONS. intros ->%list_elem_of_singleton; simpl.
  repeat split. intros [[m|]]; simpl; [|done]. by rewrite str_bool_value.
Qed.

(** The run of the write accessor of the description. *)
Lemma select_fn_run d p mode env w :
  d ∈ DESCRIPTIONS ->
  select_fn d p mode env w
  = match SmartChargingMode_lookup mode with
    | Some m => (smart_charging_result env m, add_trace [EvSmartCharging p m] w)
    | None => (Raise (Exc_ ValueError mode), w)
    end.
Proof.
  intros (_ & -> & _)%DESCRIPTIONS_inv.
  unfold SmartChargingMode_call, Peblar_smart_charging.
  by destruct (SmartChargingMode_lookup mode).
Qed.

Lemma async_select_option_run self option env w rd :
  runtime_data w = Some rd ->
  async_select_option self option env w
  = match select_fn (entity_description self)
            (peblar (user_configuraton_coordinator rd)) option env w with
    | (Return _, w1) => async_request_refresh env w1
    | (Raise e, w1) => (Raise e, w1)
    end.
Proof.
  intros Hrd. unfold async_select_option, self_coordinator, get_runtime_data.
  run_monad. by rewrite Hrd.
Qed.

(** The entities the select platform adds carry the descriptions of
    [DESCRIPTIONS], and adding them changes nothing. *)
Lemma select_setup_entities entry env w rd :
  runtime_data w = Some rd ->
  exists es,
    select_async_setup_entry entry env w = (Return es, w)
    /\ entity_description <$> es = DESCRIPTIONS
    /\ Forall (fun self =>
                 _attr_device_info self
                 = {[ (DOMAIN, product_serial_number (system_information rd)) ]})
         es.
Proof.
  intros Hrd. unfold select_async_setup_entry, DESCRIPTIONS.
  cbn [for_each]. unfold PeblarSelectEntity_init, get_runtime_data. run_monad.
  do 2 (rewrite Hrd; cbv beta iota).
  eexists; split; [reflexivity|]. split; [reflexivity|].
  by repeat constructor.
Qed.

(** The run of the property on a snapshot. *)
Lemma current_option_run self env w rd x :
  entity_description self ∈ DESCRIPTIONS ->
  runtime_data w = Some rd ->
  data (user_configuraton_coordinator rd) = Some x ->
  current_option self env w = (Return (value <$> smart_charging x), w).
Proof.
  intros (Hcur & _)%DESCRIPTIONS_inv Hrd Hx.
  unfold current_option, self_coordinator, get_runtime_data. run_monad.
  by rewrite Hrd, Hx, Hcur.
Qed.

(** C4.  Reading the current option of the smart-charging select: when
    the snapshot has no smart-charging mode the property returns [None]
    and raises nothing; when it has one, the property returns the string
    value of that mode. *)
Theorem current_option_of_snapshot self env w rd x :
  entity_description self ∈ DESCRIPTIONS ->
  runtime_data w = Some rd ->
  data (user_configuraton_coordinator rd) = Some x ->
  (smart_charging x = None -> current_option self env w = (Return None, w))
  /\ (forall m, smart_charging x = Some m ->
        current_option self env w = (Return (Some (value m)), w)).
Proof.
  intros Hd Hrd Hx. rewrite (current_option_run _ _ _ _ _ Hd Hrd Hx).
  split; [intros -> | intros m ->]; reflexivity.
Qed.

(** C3.  A select-option write that succeeds has called the vendor client
    with the mode whose value is exactly the chosen option, and after it has
    requested one refresh of the user-configuration coordinator; the
    coordinator then holds what that refresh fetched, so that the current
    option is the chosen one as soon as the charger reports it. *)
Theorem select_option_writes_then_refreshes self option env w w' :
  entity_description self ∈ DESCRIPTIONS ->
  async_select_option self option env w = (Return tt, w') ->
  exists rd rd' m evs,
    runtime_data w = Some rd
    /\ runtime_data w' = Some rd'
    /\ value m = option
    /\ trace w' = trace w ++ evs
    /\ evs = [ EvSmartCharging (peblar (user_configuraton_coordinator rd)) m;
               EvRequestRefresh UserConfig ]
    /\ count is_smart_charging evs = 1
    /\ count is_request_refresh evs = 1
    /\ user_configuraton_coordinator rd'
       = coordinator_refresh (user_configuraton_coordinator rd)
           (user_configuration_result env)
    /\ (forall x, user_configuration_result env = Return x ->
          data (user_configuraton_coordinator rd') = Some x)
    /\ (forall x, user_configuration_result env = Return x ->
          smart_charging x = Some m ->
          current_option self env w' = (Return (Some option), w')).
Proof.
  intros Hd Hrun.
  destruct (runtime_data w) as [rd|] eqn:Hrd.
  2:{ unfold async_select_option, self_coordinator, get_runtime_data in Hrun.
      run_monad. by rewrite Hrd in Hrun. }
  rewrite (async_select_option_run _ _ _ _ _ Hrd), (select_fn_run _ _ _ _ _ Hd)
    in Hrun.
  destruct (SmartChargingMode_lookup option) as [m|] eqn:Hm; [|done].
  destruct (smart_charging_result env m) as [[]|e]; [|done].
  unfold async_request_refresh in Hrun. simpl in Hrun. rewrite Hrd in Hrun.
  injection Hrun as <-.
  eexists rd, _, m, _. split; [done|]. split; [reflexivity|].
  split; [by apply SmartChargingMode_lookup_Some|].
  split; [unfold add_trace; simpl; by rewrite <- app_assoc|].
  split; [reflexivity|]. do 3 (split; [reflexivity|]).
  split.
  - intros x ->. reflexivity.
  - intros x Hx Hsc.
    rewrite <- (SmartChargingMode_lookup_Some _ _ Hm).
    erewrite (current_option_run self env _ _ x Hd);
      [by rewrite Hsc | reflexivity | simpl; by rewrite Hx].
Qed.

(** C7.  When the write accessor raises, the select-option write raises
    the same error, the log has no refresh request and the runtime data,
    with the snapshot the coordinator holds, is as it was. *)
Theorem select_option_failure_propagates self option env w rd e :
  entity_description self ∈ DESCRIPTIONS ->
  runtime_data w = Some rd ->
  (select_fn (entity_description self)
     (peblar (user_configuraton_coordinator rd)) option env w).1 = Raise e ->
  exists w' evs,
    async_select_option self option env w = (Raise e, w')
    /\ trace w' = trace w ++ evs
    /\ count is_request_refresh evs = 0
    /\ runtime_data w' = Some rd.
Proof.
  intros Hd Hrd Hsel.
  rewrite (async_select_option_run _ _ _ _ _ Hrd).
  rewrite (select_fn_run _ _ _ _ _ Hd) in *.
  destruct (SmartChargingMode_lookup option) as [m|]; simpl in Hsel.
  - rewrite Hsel. by eexists _, [_].
  - injection Hsel as <-. exists w, []. by rewrite app_nil_r.
Qed.

(** ** The coordinators *)

Lemma coordinator_refreshes_snoc {C A} (c : Coordinator C A) fetches f :
  coordinator_refreshes c (fetches ++ [f])
  = coordinator_refresh (coordinator_refreshes c fetches) f.
Proof. unfold coordinator_refreshes. by rewrite fold_left_app. Qed.

Lemma last_good_snoc {A} (fetches : list (Outcome A)) f :
  last_good (fetches ++ [f])
  = match f with Return a => Some a | Raise _ => last_good fetches end.
Proof.
  induction fetches as [|g fetches IH]; simpl.
  - by destruct f.
  - rewrite IH. destruct f; [done|]. by destruct (last_good fetches).
Qed.

(** C8.  A refresh whose fetch succeeds replaces the snapshot and resets
    the error state; a refresh whose fetch fails keeps the snapshot and
    records the error; hence after any run of refreshes a coordinator
    holds the payload of the last fetch that succeeded, or its first
    snapshot when none did.  This holds for a coordinator of any client and
    payload, so for the three of the integration. *)
Theorem failed_refresh_keeps_snapshot {C A} (c : Coordinator C A) :
  (forall a,
     data (coordinator_refresh c (Return a)) = Some a
     /\ last_update_success (coordinator_refresh c (Return a)) = true
     /\ last_exception (coordinator_refresh c (Return a)) = None)
  /\ (forall e,
        data (coordinator_refresh c (Raise e)) = data c
        /\ last_update_success (coordinator_refresh c (Raise e)) = false
        /\ last_exception (coordinator_refresh c (Raise e)) = Some e)
  /\ (forall fetches,
        data (coordinator_refreshes c fetches)
        = match last_good fetches with Some a => Some a | None => data c end)
  /\ (forall fetches f,
        last_exception (coordinator_refreshes c (fetches ++ [f]))
        = last_error (fetches ++ [f])).
Proof.
  split; [done|]. split; [done|]. split.
  - induction fetches as [|f fetches IH] using rev_ind; [done|].
    rewrite coordinator_refreshes_snoc, last_good_snoc.
    destruct f; simpl; [done | exact IH].
  - intros fetches f.
    rewrite coordinator_refreshes_snoc. unfold last_error.
    rewrite last_snoc. by destruct f.
Qed.

(** ** The unload *)

Lemma unload_platform_ok p env w :
  unload_result env p = Return true ->
  unload_platform p env w
  = (Return true,
     with_loaded_platforms (filter (fun q => q <> p) (loaded_platforms w)) w).
Proof.
  intros Hp. unfold unload_platform, get_loaded_platforms, set_loaded_platforms.
  run_monad. by rewrite Hp.
Qed.

Lemma unload_each_ok env ps : forall w,
  (forall p, p ∈ ps -> unload_result env p = Return true) ->
  exists w',
    unload_each ps env w = (Return true, w')
    /\ trace w' = trace w
    /\ runtime_data w' = runtime_data w
    /\ device_registry w' = device_registry w
    /\ sessions w' = sessions w
    /\ (forall q, q ∈ loaded_platforms w' <-> q ∈ loaded_platforms w /\ q ∉ ps).
Proof.
  induction ps as [|p ps IH]; intros w Hok.
  - exists w. split_and!; try done.
    intros q. split; [|by intros [? _]].
    intros Hq. split; [done|]. by intros ?%elem_of_nil.
  - cbn [unload_each]. rewrite run_bind.
    rewrite unload_platform_ok by (apply Hok; left).
    cbv beta iota.
    destruct (IH (with_loaded_platforms
                    (filter (fun q => q <> p) (loaded_platforms w)) w))
      as (w' & Hrun & Htr & Hrd & Hdev & Hss & Hloaded).
    { intros q Hq. apply Hok. by right. }
    rewrite run_bind, Hrun. exists w'.
    split_and!; try done.
    intros q. rewrite Hloaded. cbn [loaded_platforms with_loaded_platforms].
    rewrite list_elem_of_filter, not_elem_of_cons. tauto.
Qed.

(** The run of an unload whose teardown of every platform succeeds. *)
Lemma unload_run_ok entry env w :
  (forall p, p ∈ PLATFORMS -> unload_result env p = Return true) ->
  exists w',
    async_unload_entry entry env w = (Return true, w')
    /\ trace w' = trace w ++ [EvUnloadPlatforms PLATFORMS]
    /\ (forall p, p ∈ PLATFORMS -> p ∉ loaded_platforms w')
    /\ (forall p, p ∈ loaded_platforms w' -> p ∈ loaded_platforms w)
    /\ sessions w' = sessions w
    /\ runtime_data w' = runtime_data w.
Proof.
  intros Hok. unfold async_unload_entry, async_unload_platforms.
  rewrite run_bind, log_run. cbv beta iota.
  destruct (unload_each_ok env PLATFORMS
              (add_trace [EvUnloadPlatforms PLATFORMS] w) Hok)
    as (w' & -> & Htr & Hrd & _ & Hss & Hloaded).
  exists w'. split_and!; try done.
  - intros p Hp Hin. apply Hloaded in Hin as [_ Hnot]. done.
  - intros p Hin. by apply Hloaded in Hin as [Hin _].
Qed.

(** C9, as the code has it.  An unload whose teardown of every platform
    succeeds returns success and leaves loaded none of the platforms that a
    setup forwards to; it asks for the teardown of exactly those
    platforms, and it leaves the open client sessions as they are. *)
Theorem unload_tears_down_forwarded_platforms entry env w :
  (forall p, p ∈ PLATFORMS -> unload_result env p = Return true) ->
  exists w',
    async_unload_entry entry env w = (Return true, w')
    /\ trace w' = trace w ++ [EvUnloadPlatforms PLATFORMS]
    /\ (forall p, p ∈ PLATFORMS -> p ∉ loaded_platforms w')
    /\ (forall p, p ∈ loaded_platforms w' -> p ∈ loaded_platforms w)
    /\ sessions w' = sessions w
    /\ runtime_data w' = runtime_data w.
Proof. apply unload_run_ok. Qed.

(** The platforms an unload tears down are those a setup that returns
    has forwarded to. *)
Remark setup_forwards_PLATFORMS entry env w b w' :
  async_setup_entry entry env w = (Return b, w') ->
  loaded_platforms w' = loaded_platforms w ++ PLATFORMS
  /\ sessions w' = sessions w ++ [{| cookie_jar_unsafe := true |}].
Proof.
  intros Hrun.
  apply setup_success_inv in Hrun
    as (h & pw & si & m & u & v & _ & _ & _ & _ & _ & _ & _ & _ & _ & _ & ->).
  done.
Qed.

(** * Further properties *)

(** ** The setup: missing configuration and calls that are not made *)

(** X1.  A setup whose entry has no host raises the [KeyError] of the
    lookup at once: no session is made, no call is logged, the state is the
    one it started from. *)
Theorem setup_without_host entry env w :
  entry_data entry !! CONF_HOST = None ->
  async_setup_entry entry env w = (Raise (Exc_ KeyError CONF_HOST), w).
Proof.
  intros Hh. unfold async_setup_entry.
  rewrite run_bind, (getitem_missing _ _ Hh).
  reflexivity.
Qed.

(** X2.  A setup whose entry has a host but no password raises the
    [KeyError] of the lookup as it is (no [except] clause takes it): the
    session has been made and stays open, the charger has received no
    call, and nothing is stored, registered or forwarded. *)
Theorem setup_without_password entry env w h :
  entry_data entry !! CONF_HOST = Some h ->
  entry_data entry !! CONF_PASSWORD = None ->
  exists w',
    async_setup_entry entry env w = (Raise (Exc_ KeyError CONF_PASSWORD), w')
    /\ trace w' = trace w ++ [EvCreateSession {| cookie_jar_unsafe := true |}]
    /\ sessions w' = sessions w ++ [{| cookie_jar_unsafe := true |}]
    /\ runtime_data w' = runtime_data w
    /\ device_registry w' = device_registry w
    /\ loaded_platforms w' = loaded_platforms w.
Proof.
  intros Hh Hpw. rewrite (setup_run_no_password _ _ _ _ Hh Hpw).
  by eexists.
Qed.

(** X3.  The [try] block lets through, as it is, an exception that is no
    vendor error; a vendor error never leaves it as it is: the setup then
    raises [ConfigEntryNotReady] or [ConfigEntryAuthFailed] with the vendor
    error as cause, the latter exactly for an authentication error. *)
Theorem setup_wraps_vendor_errors_only entry env w h pw e :
  entry_data entry !! CONF_HOST = Some h ->
  entry_data entry !! CONF_PASSWORD = Some pw ->
  try_block_exception env = Some e ->
  (isinstance e PeblarError = false ->
   (async_setup_entry entry env w).1 = Raise e)
  /\ (isinstance e PeblarError = true ->
      exists c msg,
        (async_setup_entry entry env w).1 = Raise (ExcFrom c msg e)
        /\ (c = ConfigEntryNotReady \/ c = ConfigEntryAuthFailed)
        /\ (c = ConfigEntryAuthFailed <-> exc_class e = PeblarAuthenticationError)).
Proof.
  intros Hh Hpw He.
  destruct (setup_run_try_fail entry env w h pw e Hh Hpw He)
    as (evs & ss & -> & _).
  unfold setup_error, isinstance; simpl.
  split; intros Hcls.
  - by destruct (exc_class e).
  - destruct (exc_class e) eqn:Hc; try discriminate Hcls.
    + eexists _, _. split; [reflexivity|]. split; [by left|]. by split.
    + eexists _, _. split; [reflexivity|]. split; [by left|]. by split.
    + eexists _, _. split; [reflexivity|]. split; [by right|]. by split.
Qed.

(** X4.  The calls of the [try] block stop at the first that raises: when
    the login raises, the system information is not fetched and the REST
    API not enabled; when the fetch of the system information raises, the
    REST API is not enabled; and in the three cases no coordinator is
    constructed or refreshed.  The log is exactly the calls made so far. *)
Theorem setup_stops_at_first_failure entry env w h pw :
  entry_data entry !! CONF_HOST = Some h ->
  entry_data entry !! CONF_PASSWORD = Some pw ->
  (forall e, login_result env = Raise e ->
     async_setup_entry entry env w
     = (Raise (setup_error e),
        early_world [ EvCreateSession {| cookie_jar_unsafe := true |};
                      EvLogin (client_of h) pw ]
          [{| cookie_jar_unsafe := true |}] w))
  /\ (forall e, login_result env = Return tt ->
        system_information_result env = Raise e ->
        async_setup_entry entry env w
        = (Raise (setup_error e),
           early_world [ EvCreateSession {| cookie_jar_unsafe := true |};
                         EvLogin (client_of h) pw;
                         EvSystemInformation (client_of h) ]
             [{| cookie_jar_unsafe := true |}] w))
  /\ (forall si e, login_result env = Return tt ->
        system_information_result env = Return si ->
        rest_api_result env = Raise e ->
        async_setup_entry entry env w
        = (Raise (setup_error e),
           early_world [ EvCreateSession {| cookie_jar_unsafe := true |};
                         EvLogin (client_of h) pw;
                         EvSystemInformation (client_of h);
                         EvRestApi (client_of h) true READ_WRITE ]
             [{| cookie_jar_unsafe := true |}] w)).
Proof.
  intros Hh Hpw.
  split_and!.
  - intros e Hlogin. unfold async_setup_entry.
    step_with (getitem_run _ _ _ Hh).
    step_with async_create_clientsession_run.
    rewrite run_bind, try_except_run.
    step_with (getitem_run _ _ _ Hpw).
    step_with Peblar_login_run. rewrite Hlogin; cbv beta iota.
    by rewrite handler_setup_error, !add_trace_early.
  - intros e Hlogin Hsi. unfold async_setup_entry.
    step_with (getitem_run _ _ _ Hh).
    step_with async_create_clientsession_run.
    rewrite run_bind, try_except_run.
    step_with (getitem_run _ _ _ Hpw).
    step_with Peblar_login_run. rewrite Hlogin; cbv beta iota.
    step_with Peblar_system_information_run. rewrite Hsi; cbv beta iota.
    by rewrite handler_setup_error, !add_trace_early.
  - intros si e Hlogin Hsi Hapi. unfold async_setup_entry.
    step_with (getitem_run _ _ _ Hh).
    step_with async_create_clientsession_run.
    rewrite run_bind, try_except_run.
    step_with (getitem_run _ _ _ Hpw).
    step_with Peblar_login_run. rewrite Hlogin; cbv beta iota.
    step_with Peblar_system_information_run. rewrite Hsi; cbv beta iota.
    step_with Peblar_rest_api_run. rewrite Hapi; cbv beta iota.
    by rewrite handler_setup_error, !add_trace_early.
Qed.

(** ** The setup: what a setup that returns has done *)

Lemma filter_first_refreshes (P : Event -> bool) order :
  (forall k, P (EvFirstRefresh k) = false) ->
  List.filter P (EvFirstRefresh <$> order) = [].
Proof.
  intros HP. induction order as [|k order IH]; [done|].
  rewrite fmap_cons. cbn [List.filter]. by rewrite HP.
Qed.

Lemma filter_setup_events P entry env h pw si v :
  (forall k, P (EvFirstRefresh k) = false) ->
  List.filter P (setup_events entry env h pw si v)
  = List.filter P (connect_events h pw)
    ++ List.filter P [ EvSetRuntimeData;
                       EvRegisterDevice (device_record entry h si v);
                       EvForwardSetups PLATFORMS ].
Proof.
  intros HP. unfold setup_events.
  by rewrite !List.filter_app, (filter_first_refreshes P _ HP).
Qed.

(** X5.  In a setup that returns, the one session is made with the unsafe
    cookie jar, the one login is made on the client of the entry's host
    with the entry's password, and the one call to the REST API enables it
    in read-write mode on that client. *)
Theorem setup_calls_use_entry_data entry env w b w' :
  async_setup_entry entry env w = (Return b, w') ->
  exists h pw evs,
    entry_data entry !! CONF_HOST = Some h
    /\ entry_data entry !! CONF_PASSWORD = Some pw
    /\ trace w' = trace w ++ evs
    /\ List.filter is_create_session evs
       = [EvCreateSession {| cookie_jar_unsafe := true |}]
    /\ List.filter is_login evs
       = [EvLogin {| host := h; session := {| cookie_jar_unsafe := true |} |} pw]
    /\ List.filter is_rest_api evs
       = [EvRestApi {| host := h; session := {| cookie_jar_unsafe := true |} |}
            true READ_WRITE].
Proof.
  intros Hrun.
  apply setup_success_inv in Hrun
    as (h & pw & si & m & u & v & Hh & Hpw & _ & _ & _ & _ & _ & _ & _ & _ & ->).
  exists h, pw, (setup_events entry env h pw si v).
  split_and!; try done; by rewrite filter_setup_events.
Qed.

(** X6.  The runtime data a setup that returns has stored holds the system
    information that was fetched and three coordinators, each with the
    payload its first refresh fetched and no error; the user-configuration
    and version coordinators poll the client of the entry's host, the
    meter coordinator the read-write REST API of that client. *)
Theorem setup_stores_fetched_data entry env w b w' :
  async_setup_entry entry env w = (Return b, w') ->
  exists rd h si m u v,
    runtime_data w' = Some rd
    /\ entry_data entry !! CONF_HOST = Some h
    /\ system_information_result env = Return si
    /\ meter_result env = Return m
    /\ user_configuration_result env = Return u
    /\ versions_result env = Return v
    /\ system_information rd = si
    /\ data (data_coordinator rd) = Some m
    /\ data (user_configuraton_coordinator rd) = Some u
    /\ data (version_coordinator rd) = Some v
    /\ last_exception (data_coordinator rd) = None
    /\ last_exception (user_configuraton_coordinator rd) = None
    /\ last_exception (version_coordinator rd) = None
    /\ peblar (user_configuraton_coordinator rd)
       = {| host := h; session := {| cookie_jar_unsafe := true |} |}
    /\ peblar (version_coordinator rd)
       = {| host := h; session := {| cookie_jar_unsafe := true |} |}
    /\ peblar (data_coordinator rd)
       = {| api_client :=
              {| host := h; session := {| cookie_jar_unsafe := true |} |};
            api_access_mode := READ_WRITE |}.
Proof.
  intros Hrun.
  apply setup_success_inv in Hrun
    as (h & pw & si & m & u & v & Hh & _ & _ & Hsi & _ & Hm & Hu & Hv & _ & _ & ->).
  exists (runtime_record h si m u v), h, si, m, u, v.
  by split_and!.
Qed.

(** X7.  The record a setup that returns has handed to the device
    registry carries the entry's id, the URL [http://] followed by the
    entry's host, the vendor name, model name, product number and serial
    number of the system information, the fixed name, and as software
    version the current firmware that the version coordinator fetched. *)
Theorem device_record_fields entry env w b w' :
  async_setup_entry entry env w = (Return b, w') ->
  exists d h si v,
    device_registry w' = device_registry w ++ [d]
    /\ entry_data entry !! CONF_HOST = Some h
    /\ system_information_result env = Return si
    /\ versions_result env = Return v
    /\ config_entry_id d = entry_id entry
    /\ configuration_url d = "http://" +:+ h
    /\ manufacturer d = product_vendor_name si
    /\ model_id d = product_number si
    /\ model d = product_model_name si
    /\ name d = "Peblar EV Charger"
    /\ serial_number d = product_serial_number si
    /\ sw_version d = firmware (current v).
Proof.
  intros Hrun.
  apply setup_success_inv in Hrun
    as (h & pw & si & m & u & v & Hh & _ & _ & Hsi & _ & _ & _ & Hv & _ & _ & ->).
  exists (device_record entry h si v), h, si, v.
  by split_and!.
Qed.

(** X8.  The connections of the registered device are a set: a charger
    whose Ethernet and WLAN MAC addresses are the same gets one
    connection, any other charger two. *)
Theorem device_connections_size entry env w b w' :
  async_setup_entry entry env w = (Return b, w') ->
  exists si d,
    system_information_result env = Return si
    /\ device_registry w' = device_registry w ++ [d]
    /\ (ethernet_mac_address si = wlan_mac_address si ->
        connections d = {[ (CONNECTION_NETWORK_MAC, ethernet_mac_address si) ]}
        /\ size (connections d) = 1)
    /\ (ethernet_mac_address si <> wlan_mac_address si ->
        size (connections d) = 2).
Proof.
  intros Hrun.
  apply setup_success_inv in Hrun
    as (h & pw & si & m & u & v & _ & _ & _ & Hsi & _ & _ & _ & _ & _ & _ & ->).
  exists si, (device_record entry h si v).
  split; [done|]. split; [done|].
  cbn [connections device_record]. split.
  - intros ->. rewrite (idemp_L (∪)). split; [done|]. apply size_singleton.
  - intros Hne. rewrite size_union, !size_singleton; [done|].
    apply disjoint_singleton_l. rewrite elem_of_singleton. congruence.
Qed.

(** ** The setup: which failing refresh is the one raised *)



(** ** The setup: a failure while forwarding *)


(** ** The unload, whatever the teardown answers *)

Lemma unload_platform_run p b env w :
  unload_result env p = Return b ->
  unload_platform p env w
  = (Return b,
     with_loaded_platforms
       (if b then filter (fun q => q <> p) (loaded_platforms w)
        else loaded_platforms w) w).
Proof.
  intros Hp. unfold unload_platform, get_loaded_platforms, set_loaded_platforms.
  run_monad. by rewrite Hp.
Qed.

Lemma unload_each_run env ps : forall w,
  (forall p, p ∈ ps -> exists b, unload_result env p = Return b) ->
  exists w',
    unload_each ps env w = (Return (forallb (teardown_ok env) ps), w')
    /\ trace w' = trace w
    /\ runtime_data w' = runtime_data w
    /\ device_registry w' = device_registry w
    /\ sessions w' = sessions w
    /\ (forall q, q ∈ loaded_platforms w' <->
          q ∈ loaded_platforms w /\ ~ (q ∈ ps /\ teardown_ok env q = true)).
Proof.
  induction ps as [|p ps IH]; intros w Hok.
  - exists w. split_and!; try done.
    intros q. rewrite elem_of_nil. tauto.
  - destruct (Hok p) as [b Hb]; [left|].
    cbn [unload_each forallb]. rewrite run_bind.
    rewrite (unload_platform_run _ _ _ _ Hb). cbv beta iota.
    destruct (IH (with_loaded_platforms
                    (if b then filter (fun q => q <> p) (loaded_platforms w)
                     else loaded_platforms w) w))
      as (w' & Hrun & Htr & Hrd & Hdev & Hss & Hloaded).
    { intros q Hq. apply Hok. by right. }
    rewrite run_bind, Hrun. exists w'.
    assert (Hp : teardown_ok env p = b).
    { unfold teardown_ok. rewrite Hb. by destruct b. }
    rewrite Hp. split_and!; try done.
    intros q. rewrite Hloaded. cbn [loaded_platforms with_loaded_platforms].
    rewrite elem_of_cons. destruct b.
    + rewrite list_elem_of_filter. split.
      * intros [[Hne Hin] Hnot]. split; [done|].
        intros [[->|Hq] Hqok]; [done | by apply Hnot].
      * intros [Hin Hnot]. split; [split; [|done]|].
        -- intros ->. apply Hnot. split; [by left | exact Hp].
        -- intros [Hq Hqok]. apply Hnot. split; [by right | done].
    + split.
      * intros [Hin Hnot]. split; [done|].
        intros [[->|Hq] Hqok]; [congruence | by apply Hnot].
      * intros [Hin Hnot]. split; [done|].
        intros [Hq Hqok]. apply Hnot. split; [by right | done].
Qed.

(** X11.  An unload none of whose teardowns raises returns whether all of
    them answered success; it makes the one call for [PLATFORMS], leaves
    loaded exactly the platforms that were loaded and that are not among
    those torn down with success, and leaves the runtime data, the
    registered devices and the open sessions as they were. *)
Theorem unload_returns_teardown_answer entry env w :
  (forall p, p ∈ PLATFORMS -> exists b, unload_result env p = Return b) ->
  exists w',
    async_unload_entry entry env w
    = (Return (forallb (teardown_ok env) PLATFORMS), w')
    /\ trace w' = trace w ++ [EvUnloadPlatforms PLATFORMS]
    /\ (forall q, q ∈ loaded_platforms w' <->
          q ∈ loaded_platforms w
          /\ ~ (q ∈ PLATFORMS /\ teardown_ok env q = true))
    /\ runtime_data w' = runtime_data w
    /\ device_registry w' = device_registry w
    /\ sessions w' = sessions w.
Proof.
  intros Hok. unfold async_unload_entry, async_unload_platforms.
  rewrite run_bind, log_run. cbv beta iota.
  destruct (unload_each_run env PLATFORMS
              (add_trace [EvUnloadPlatforms PLATFORMS] w) Hok)
    as (w' & -> & Htr & Hrd & Hdev & Hss & Hloaded).
  exists w'. by split_and!.
Qed.

(** X12.  A setup that returns followed by an unload whose teardowns all
    succeed leaves loaded the platforms that were loaded before the setup
    and are not in [PLATFORMS]; the runtime data the setup stored and the
    device it registered are still there after the unload. *)
Theorem setup_then_unload entry env env' w b w1 :
  async_setup_entry entry env w = (Return b, w1) ->
  (forall p, p ∈ PLATFORMS -> unload_result env' p = Return true) ->
  exists w2,
    async_unload_entry entry env' w1 = (Return true, w2)
    /\ (forall q, q ∈ loaded_platforms w2 <->
          q ∈ loaded_platforms w /\ q ∉ PLATFORMS)
    /\ is_Some (runtime_data w2)
    /\ runtime_data w2 = runtime_data w1
    /\ device_registry w2 = device_registry w1
    /\ length (device_registry w2) = S (length (device_registry w)).
Proof.
  intros Hrun Hok.
  apply setup_success_inv in Hrun
    as (h & pw & si & m & u & v & _ & _ & _ & _ & _ & _ & _ & _ & _ & _ & ->).
  destruct (unload_each_run env' PLATFORMS
              (add_trace [EvUnloadPlatforms PLATFORMS]
                 (setup_world entry env h pw si m u v w)))
    as (w2 & Hrun & _ & Hrd & Hdev & _ & Hloaded).
  { intros p Hp. exists true. by apply Hok. }
  assert (Hall : forallb (teardown_ok env') PLATFORMS = true).
  { apply forallb_forall. intros p Hp%list_elem_of_In.
    unfold teardown_ok. by rewrite (Hok p Hp). }
  rewrite Hall in Hrun.
  unfold async_unload_entry, async_unload_platforms.
  rewrite run_bind, log_run. cbv beta iota. rewrite Hrun.
  exists w2. split; [done|]. split_and!.
  - intros q. rewrite Hloaded.
    unfold add_trace, setup_world. cbn [loaded_platforms].
    rewrite elem_of_app. split.
    + intros [[Hin|Hin] Hnot].
      * split; [done|]. intros Hq. apply Hnot. split; [done|].
        unfold teardown_ok. by rewrite (Hok q Hq).
      * exfalso. apply Hnot. split; [done|].
        unfold teardown_ok. by rewrite (Hok q Hin).
    + intros [Hin Hnot]. split; [by left|]. by intros [Hq _].
  - rewrite Hrd. by eexists.
  - by rewrite Hrd.
  - by rewrite Hdev.
  - rewrite Hdev. unfold add_trace, setup_world. cbn [device_registry].
    rewrite length_app. cbn [length]. lia.
Qed.

(** ** The select entity: options and modes *)

Lemma SmartChargingMode_member m : m ∈ SmartChargingMode_members.
Proof. unfold SmartChargingMode_members. destruct m; set_solver. Qed.

(** X13.  The write accessor of the smart-charging select accepts exactly
    the options the description lists: for a listed option it calls the
    vendor client with the mode of that value, for any other string it
    raises [ValueError] and calls nothing. *)
Theorem select_fn_accepts_listed_options d p option env w :
  d ∈ DESCRIPTIONS ->
  (option ∈ options d ->
   exists m,
     value m = option
     /\ select_fn d p option env w
        = (smart_charging_result env m, add_trace [EvSmartCharging p m] w))
  /\ (option ∉ options d ->
      select_fn d p option env w = (Raise (Exc_ ValueError option), w)).
Proof.
  intros Hd. rewrite (select_fn_run _ _ _ _ _ Hd).
  destruct (DESCRIPTIONS_inv d Hd) as (_ & _ & ->).
  split.
  - intros (m & -> & _)%list_elem_of_fmap.
    exists m. by rewrite SmartChargingMode_lookup_value.
  - intros Hnot.
    destruct (SmartChargingMode_lookup option) as [m|] eqn:Hm; [|done].
    exfalso. apply Hnot. apply list_elem_of_fmap. exists m.
    split; [by rewrite (SmartChargingMode_lookup_Some _ _ Hm)|].
    apply SmartChargingMode_member.
Qed.

(** X14.  The current option of the smart-charging select, when there is
    one, is one of the options the description lists, and selecting it again
    would send the mode the snapshot holds. *)
Theorem current_fn_among_options d x o :
  d ∈ DESCRIPTIONS ->
  current_fn d x = Some o ->
  o ∈ options d
  /\ exists m, smart_charging x = Some m /\ SmartChargingMode_lookup o = Some m.
Proof.
  intros Hd. destruct (DESCRIPTIONS_inv d Hd) as (-> & _ & ->).
  destruct (smart_charging x) as [m|]; [|done].
  intros [= <-]. split.
  - apply list_elem_of_fmap_2, SmartChargingMode_member.
  - exists m. split; [done|]. apply SmartChargingMode_lookup_value.
Qed.

(** ** The select platform *)

Lemma select_setup_run entry env w rd :
  runtime_data w = Some rd ->
  exists es,
    select_async_setup_entry entry env w = (Return es, w)
    /\ entity_description <$> es = DESCRIPTIONS
    /\ Forall (fun self =>
                 _attr_device_info self
                 = {[ (DOMAIN, product_serial_number (system_information rd)) ]}
                 /\ _attr_unique_id self
                    = format_optional (unique_id entry) +:+ "-"
                      +:+ key (entity_description self))
         es.
Proof.
  intros Hrd. unfold select_async_setup_entry, DESCRIPTIONS.
  cbn [for_each]. unfold PeblarSelectEntity_init, get_runtime_data. run_monad.
  do 2 (rewrite Hrd; cbv beta iota).
  eexists; split; [reflexivity|]. split; [reflexivity|].
  by repeat constructor.
Qed.

(** X15.  After a setup that returns, the select platform adds one entity
    per description, without any call and without changing the state; each
    entity is attached to the device the setup registered (its device
    identifiers are those of the registered record) and its unique id is
    the entry's unique id, a dash and the key of its description. *)
Theorem select_entities_attach_to_device entry env env' w b w1 :
  async_setup_entry entry env w = (Return b, w1) ->
  exists d es,
    device_registry w1 = device_registry w ++ [d]
    /\ select_async_setup_entry entry env' w1 = (Return es, w1)
    /\ entity_description <$> es = DESCRIPTIONS
    /\ Forall (fun self =>
                 _attr_device_info self = identifiers d
                 /\ _attr_unique_id self
                    = format_optional (unique_id entry) +:+ "-"
                      +:+ key (entity_description self))
         es.
Proof.
  intros Hrun.
  apply setup_success_inv in Hrun
    as (h & pw & si & m & u & v & _ & _ & _ & _ & _ & _ & _ & _ & _ & _ & ->).
  destruct (select_setup_run entry env' (setup_world entry env h pw si m u v w)
              (runtime_record h si m u v) eq_refl)
    as (es & Hes & Hdesc & Hall).
  exists (device_record entry h si v), es. by split_and!.
Qed.


(** ** The select entity: what a write keeps *)

Lemma async_select_option_keeps self option env w rd :
  entity_description self ∈ DESCRIPTIONS ->
  runtime_data w = Some rd ->
  exists rd',
    runtime_data (async_select_option self option env w).2 = Some rd'
    /\ system_information rd' = system_information rd
    /\ data_coordinator rd' = data_coordinator rd
    /\ version_coordinator rd' = version_coordinator rd
    /\ peblar (user_configuraton_coordinator rd')
       = peblar (user_configuraton_coordinator rd)
    /\ (is_Some (data (user_configuraton_coordinator rd)) ->
        is_Some (data (user_configuraton_coordinator rd')))
    /\ device_registry (async_select_option self option env w).2
       = device_registry w
    /\ loaded_platforms (async_select_option self option env w).2
       = loaded_platforms w
    /\ sessions (async_select_option self option env w).2 = sessions w.
Proof.
  intros Hd Hrd.
  rewrite (async_select_option_run _ _ _ _ _ Hrd), (select_fn_run _ _ _ _ _ Hd).
  destruct (SmartChargingMode_lookup option) as [m|]; [|by exists rd].
  destruct (smart_charging_result env m) as [[]|e]; [|by exists rd].
  unfold async_request_refresh, add_trace; cbn [runtime_data]. rewrite Hrd.
  eexists; split; [reflexivity|]. split_and!; try done.
  - by destruct (user_configuration_result env).
  - cbn [user_configuraton_coordinator].
    by destruct (user_configuration_result env).
Qed.

(** X17.  After any run of select-option calls, whatever the options and
    whatever the charger answers, the runtime data is still set, its system
    information, meter and version coordinators and its client are those
    it had, the user-configuration coordinator still holds a snapshot, and
    so reading the current option raises nothing; the registered devices,
    the loaded platforms and the open sessions are as they were. *)
Theorem select_options_keep_snapshot self steps : forall w rd x,
  entity_description self ∈ DESCRIPTIONS ->
  runtime_data w = Some rd ->
  data (user_configuraton_coordinator rd) = Some x ->
  exists rd' x',
    runtime_data (select_options self steps w) = Some rd'
    /\ data (user_configuraton_coordinator rd') = Some x'
    /\ system_information rd' = system_information rd
    /\ data_coordinator rd' = data_coordinator rd
    /\ version_coordinator rd' = version_coordinator rd
    /\ peblar (user_configuraton_coordinator rd')
       = peblar (user_configuraton_coordinator rd)
    /\ device_registry (select_options self steps w) = device_registry w
    /\ loaded_platforms (select_options self steps w) = loaded_platforms w
    /\ sessions (select_options self steps w) = sessions w
    /\ (forall env,
          current_option self env (select_options self steps w)
          = (Return (value <$> smart_charging x'), select_options self steps w)).
Proof.
  induction steps as [|[option env] steps IH]; intros w rd x Hd Hrd Hx.
  - exists rd, x. split_and!; try done.
    intros env. by apply (current_option_run self env w rd x).
  - cbn [select_options].
    destruct (async_select_option_keeps self option env w rd Hd Hrd)
      as (rd1 & Hrd1 & Hsi & Hdc & Hvc & Hp & Hsome & Hdev & Hpl & Hss).
    destruct Hsome as [x1 Hx1]; [by rewrite Hx|].
    destruct (IH _ rd1 x1 Hd Hrd1 Hx1)
      as (rd' & x' & H1 & H2 & H3 & H4 & H5 & H6 & H7 & H8 & H9 & H10).
    exists rd', x'. split_and!; try done; congruence.
Qed.

(** X18.  A select-option write that the charger accepts but whose refresh
    fails still returns: the error of the fetch is recorded in the
    coordinator, the snapshot is the one from before the write, and so the
    current option reads as before. *)
Theorem select_option_with_failed_refresh self option env w rd m e :
  entity_description self ∈ DESCRIPTIONS ->
  runtime_data w = Some rd ->
  SmartChargingMode_lookup option = Some m ->
  smart_charging_result env m = Return tt ->
  user_configuration_result env = Raise e ->
  exists w' rd',
    async_select_option self option env w = (Return tt, w')
    /\ runtime_data w' = Some rd'
    /\ data (user_configuraton_coordinator rd')
       = data (user_configuraton_coordinator rd)
    /\ last_update_success (user_configuraton_coordinator rd') = false
    /\ last_exception (user_configuraton_coordinator rd') = Some e
    /\ (forall env', (current_option self env' w').1
                     = (current_option self env' w).1).
Proof.
  intros Hd Hrd Hm Hwrite Hfetch.
  rewrite (async_select_option_run _ _ _ _ _ Hrd), (select_fn_run _ _ _ _ _ Hd).
  rewrite Hm, Hwrite.
  unfold async_request_refresh, add_trace; cbn [runtime_data].
  rewrite Hrd, Hfetch.
  eexists _, _. split; [reflexivity|]. split; [reflexivity|].
  split_and!; try done.
  intros env'. unfold current_option, self_coordinator, get_runtime_data.
  run_monad. cbn [runtime_data with_runtime_data]. rewrite Hrd.
  cbn [user_configuraton_coordinator coordinator_refresh data].
  by destruct (data (user_configuraton_coordinator rd)).
Qed.

(** X19.  After a setup that returns, a select-option write that succeeds
    has called the charger through the client of the entry's host, and
    the log of the write is that call followed by the refresh request. *)
Theorem select_option_calls_entry_host entry env env' w b w1 self option w2 :
  async_setup_entry entry env w = (Return b, w1) ->
  entity_description self ∈ DESCRIPTIONS ->
  async_select_option self option env' w1 = (Return tt, w2) ->
  exists h m,
    entry_data entry !! CONF_HOST = Some h
    /\ value m = option
    /\ trace w2
       = trace w1
         ++ [ EvSmartCharging
                {| host := h; session := {| cookie_jar_unsafe := true |} |} m;
              EvRequestRefresh UserConfig ].
Proof.
  intros Hrun Hd Hsel.
  apply setup_success_inv in Hrun
    as (h & pw & si & m0 & u & v & Hh & _ & _ & _ & _ & _ & _ & _ & _ & _ & ->).
  rewrite (async_select_option_run self option env'
             (setup_world entry env h pw si m0 u v w)
             (runtime_record h si m0 u v) eq_refl),
    (select_fn_run _ _ _ _ _ Hd) in Hsel.
  destruct (SmartChargingMode_lookup option) as [m|] eqn:Hm; [|done].
  destruct (smart_charging_result env' m) as [[]|e]; [|done].
  unfold async_request_refresh, add_trace in Hsel; cbn [runtime_data] in Hsel.
  injection Hsel as <-.
  exists h, m. split; [done|]. split; [by apply SmartChargingMode_lookup_Some|].
  unfold with_runtime_data; cbn [trace]. by rewrite <- app_assoc.
Qed.

End Peblar.

(** * The properties on sample runs *)

(** The three kinds of vendor error, each injected at another call of the
    [try] block. *)
Lemma setup_error_taxonomy_witness :
  (async_setup_entry "peblar" "mac" "host" "password" nat
     (sample_entry "host" "password")
     (connect_env nat 0 (Raise (Exc_ PeblarConnectionError "timed out"))
        (Return sample_system_information) (Return tt))
     (empty_world nat)).1
  = Raise (ExcFrom ConfigEntryNotReady "Could not connect to Peblar charger"
             (Exc_ PeblarConnectionError "timed out"))
  /\ (async_setup_entry "peblar" "mac" "host" "password" nat
        (sample_entry "host" "password")
        (connect_env nat 0 (Return tt)
           (Raise (Exc_ PeblarAuthenticationError "bad password")) (Return tt))
        (empty_world nat)).1
     = Raise (ExcFrom ConfigEntryAuthFailed ""
                (Exc_ PeblarAuthenticationError "bad password"))
  /\ (async_setup_entry "peblar" "mac" "host" "password" nat
        (sample_entry "host" "password")
        (connect_env nat 0 (Return tt) (Return sample_system_information)
           (Raise (Exc_ PeblarError "unexpected response")))
        (empty_world nat)).1
     = Raise (ExcFrom ConfigEntryNotReady
                "Unknown error occurred while connecting to Peblar charger"
                (Exc_ PeblarError "unexpected response")).
Proof.
  split; [|split].
  - apply (setup_error_taxonomy "peblar" "mac" "host" "password" nat
             (sample_entry "host" "password") _ (empty_world nat)
             "192.0.2.10" "secret" (Exc_ PeblarConnectionError "timed out"));
      reflexivity.
  - apply (setup_error_taxonomy "peblar" "mac" "host" "password" nat
             (sample_entry "host" "password") _ (empty_world nat)
             "192.0.2.10" "secret" (Exc_ PeblarAuthenticationError "bad password"));
      reflexivity.
  - apply (setup_error_taxonomy "peblar" "mac" "host" "password" nat
             (sample_entry "host" "password") _ (empty_world nat)
             "192.0.2.10" "secret" (Exc_ PeblarError "unexpected response"));
      reflexivity.
Defined.

(** A setup whose version fetch fails, and a setup that returns. *)
Lemma first_refresh_failure_fails_setup_witness :
  (exists e,
     (async_setup_entry "peblar" "mac" "host" "password" nat
        (sample_entry "host" "password")
        (fetch_env nat 0 (Return {| smart_charging := None |})
           (Raise (Exc_ PeblarConnectionError "no route")) (Return tt))
        (empty_world nat)).1 = Raise e
     /\ (is_Some (entry_data (sample_entry "host" "password") !! "host") ->
         is_Some (entry_data (sample_entry "host" "password") !! "password") ->
         try_block_exception nat
           (fetch_env nat 0 (Return {| smart_charging := None |})
              (Raise (Exc_ PeblarConnectionError "no route")) (Return tt)) = None ->
         exists k',
           first_refresh_error nat
             (fetch_env nat 0 (Return {| smart_charging := None |})
                (Raise (Exc_ PeblarConnectionError "no route")) (Return tt)) k'
           = Some e))
  /\ (forall k, first_refresh_ok nat (sample_env nat 0) k = true).
Proof.
  split.
  - apply (proj1 (first_refresh_failure_fails_setup
                    "peblar" "mac" "host" "password" nat
                    (sample_entry "host" "password")
                    (fetch_env nat 0 (Return {| smart_charging := None |})
                       (Raise (Exc_ PeblarConnectionError "no route"))
                       (Return tt))
                    (empty_world nat)) Version).
    reflexivity.
  - apply (proj2 (first_refresh_failure_fails_setup
                    "peblar" "mac" "host" "password" nat
                    (sample_entry "host" "password") (sample_env nat 0)
                    (empty_world nat)) true).
    vm_compute. reflexivity.
Defined.

(** The scenario of the specification: serial number "ABC123", Ethernet
    MAC "aa:bb:cc:dd:ee:ff" and WLAN MAC "11:22:33:44:55:66". *)
Lemma device_record_from_system_information_witness :
  exists d,
    device_registry nat (sample_world "peblar" "mac" "host" "password" nat 0)
    = [d]
    /\ identifiers d = {[ ("peblar", "ABC123") ]}
    /\ ("mac", "aa:bb:cc:dd:ee:ff") ∈ connections d
    /\ ("mac", "11:22:33:44:55:66") ∈ connections d.
Proof.
  destruct (device_record_from_system_information
              "peblar" "mac" "host" "password" nat
              (sample_entry "host" "password") (sample_env nat 0)
              (empty_world nat) true
              (sample_world "peblar" "mac" "host" "password" nat 0))
    as (si & d & evs & Hsi & _ & _ & Hreg & Hid & _ & Hconn).
  { vm_compute. reflexivity. }
  injection Hsi as <-.
  exists d. split; [exact Hreg|]. split; [exact Hid|].
  split; apply Hconn; [left | right]; reflexivity.
Defined.

(** The log of the sample setup. *)
Lemma setup_steps_in_order_witness :
  exists evs,
    trace nat (sample_world "peblar" "mac" "host" "password" nat 0) = evs
    /\ (forall k, count (is_first_refresh_of k) evs = 1)
    /\ count is_register_device evs = 1
    /\ all_before is_rest_api is_construct evs
    /\ all_before is_first_refresh is_register_device evs
    /\ all_before is_register_device is_forward_setups evs.
Proof.
  destruct (setup_steps_in_order
              "peblar" "mac" "host" "password" nat
              (sample_entry "host" "password") (sample_env nat 0)
              (empty_world nat) true
              (sample_world "peblar" "mac" "host" "password" nat 0))
    as (evs & Htr & _ & _ & _ & _ & Hrefresh & Hreg & _ & _ & _ & _ & _
        & Hapi & _ & Hbefore & Hfwd).
  { vm_compute. reflexivity. }
  exists evs. split; [exact Htr|]. by split_and!.
Defined.

(** A setup whose login fails, and a setup whose version fetch fails. *)
Lemma failed_setup_leaves_host_untouched_witness :
  (exists e w' evs,
     async_setup_entry "peblar" "mac" "host" "password" nat
       (sample_entry "host" "password")
       (connect_env nat 0 (Raise (Exc_ PeblarAuthenticationError "bad password"))
          (Return sample_system_information) (Return tt))
       (empty_world nat) = (Raise e, w')
     /\ runtime_data nat w' = runtime_data nat (empty_world nat)
     /\ device_registry nat w' = device_registry nat (empty_world nat)
     /\ loaded_platforms nat w' = loaded_platforms nat (empty_world nat)
     /\ trace nat w' = trace nat (empty_world nat) ++ evs
     /\ forallb (fun ev => negb (is_host_write ev)) evs = true)
  /\ (exists e w' evs,
        async_setup_entry "peblar" "mac" "host" "password" nat
          (sample_entry "host" "password")
          (fetch_env nat 0 (Return {| smart_charging := None |})
             (Raise (Exc_ PeblarConnectionError "no route")) (Return tt))
          (empty_world nat) = (Raise e, w')
        /\ runtime_data nat w' = runtime_data nat (empty_world nat)
        /\ device_registry nat w' = device_registry nat (empty_world nat)
        /\ loaded_platforms nat w' = loaded_platforms nat (empty_world nat)
        /\ trace nat w' = trace nat (empty_world nat) ++ evs
        /\ forallb (fun ev => negb (is_host_write ev)) evs = true).
Proof.
  split.
  - apply (failed_setup_leaves_host_untouched
             "peblar" "mac" "host" "password" nat).
    left. simpl. discriminate.
  - apply (failed_setup_leaves_host_untouched
             "peblar" "mac" "host" "password" nat).
    right. exists Version. reflexivity.
Defined.

(** A snapshot without a smart-charging mode, and one with "pure_solar". *)
Lemma current_option_of_snapshot_witness :
  current_option nat (sample_entity "peblar" nat) (sample_env nat 0)
    (async_setup_entry "peblar" "mac" "host" "password" nat
       (sample_entry "host" "password")
       (fetch_env nat 0 (Return {| smart_charging := None |})
          (Return sample_versions) (Return tt))
       (empty_world nat)).2
  = (Return None,
     (async_setup_entry "peblar" "mac" "host" "password" nat
        (sample_entry "host" "password")
        (fetch_env nat 0 (Return {| smart_charging := None |})
           (Return sample_versions) (Return tt))
        (empty_world nat)).2)
  /\ current_option nat (sample_entity "peblar" nat) (sample_env nat 0)
       (sample_world "peblar" "mac" "host" "password" nat 0)
     = (Return (Some "pure_solar"),
        sample_world "peblar" "mac" "host" "password" nat 0).
Proof.
  split.
  - refine (proj1 (current_option_of_snapshot nat (sample_entity "peblar" nat)
                     (sample_env nat 0) _
                     (runtime_record nat "192.0.2.10" sample_system_information 0
                        {| smart_charging := None |} sample_versions)
                     {| smart_charging := None |} _ _ _) _).
    + apply list_elem_of_here.
    + vm_compute. reflexivity.
    + reflexivity.
    + reflexivity.
  - refine (proj2 (current_option_of_snapshot nat (sample_entity "peblar" nat)
                     (sample_env nat 0) _
                     (runtime_record nat "192.0.2.10" sample_system_information 0
                        {| smart_charging := Some PURE_SOLAR |} sample_versions)
                     {| smart_charging := Some PURE_SOLAR |} _ _ _)
              PURE_SOLAR _).
    + apply list_elem_of_here.
    + vm_compute. reflexivity.
    + reflexivity.
    + reflexivity.
Defined.

(** The scenario of the specification: selecting "pure_solar". *)
Lemma select_option_writes_then_refreshes_witness :
  exists evs,
    trace nat
      (async_select_option nat (sample_entity "peblar" nat) "pure_solar"
         (sample_env nat 0)
         (sample_world "peblar" "mac" "host" "password" nat 0)).2
    = trace nat (sample_world "peblar" "mac" "host" "password" nat 0) ++ evs
    /\ evs = [ EvSmartCharging (client_of "192.0.2.10") PURE_SOLAR;
               EvRequestRefresh UserConfig ]
    /\ current_option nat (sample_entity "peblar" nat) (sample_env nat 0)
         (async_select_option nat (sample_entity "peblar" nat) "pure_solar"
            (sample_env nat 0)
            (sample_world "peblar" "mac" "host" "password" nat 0)).2
       = (Return (Some "pure_solar"),
          (async_select_option nat (sample_entity "peblar" nat) "pure_solar"
             (sample_env nat 0)
             (sample_world "peblar" "mac" "host" "password" nat 0)).2).
Proof.
  destruct (select_option_writes_then_refreshes nat
              (sample_entity "peblar" nat) "pure_solar" (sample_env nat 0)
              (sample_world "peblar" "mac" "host" "password" nat 0)
              (async_select_option nat (sample_entity "peblar" nat) "pure_solar"
                 (sample_env nat 0)
                 (sample_world "peblar" "mac" "host" "password" nat 0)).2)
    as (rd & rd' & m & evs & Hrd & _ & Hm & Htr & Hevs & _ & _ & _ & _ & Hcur).
  { apply list_elem_of_here. }
  { vm_compute. reflexivity. }
  assert (m = PURE_SOLAR) as -> by (by destruct m).
  vm_compute in Hrd. injection Hrd as <-.
  exists evs. split; [exact Htr|]. split; [exact Hevs|].
  apply (Hcur {| smart_charging := Some PURE_SOLAR |}); reflexivity.
Defined.

(** An option that is no smart-charging mode, and a write the charger
    rejects. *)
Lemma select_option_failure_propagates_witness :
  (exists w' evs,
     async_select_option nat (sample_entity "peblar" nat) "turbo"
       (sample_env nat 0)
       (sample_world "peblar" "mac" "host" "password" nat 0)
     = (Raise (Exc_ ValueError "turbo"), w')
     /\ trace nat w'
        = trace nat (sample_world "peblar" "mac" "host" "password" nat 0) ++ evs
     /\ count is_request_refresh evs = 0
     /\ runtime_data nat w'
        = Some (runtime_record nat "192.0.2.10" sample_system_information 0
                  {| smart_charging := Some PURE_SOLAR |} sample_versions))
  /\ (exists w' evs,
        async_select_option nat (sample_entity "peblar" nat) "fast_solar"
          (fetch_env nat 0 (Return {| smart_charging := Some PURE_SOLAR |})
             (Return sample_versions) (Raise (Exc_ PeblarError "rejected")))
          (sample_world "peblar" "mac" "host" "password" nat 0)
        = (Raise (Exc_ PeblarError "rejected"), w')
        /\ trace nat w'
           = trace nat (sample_world "peblar" "mac" "host" "password" nat 0)
             ++ evs
        /\ count is_request_refresh evs = 0
        /\ runtime_data nat w'
           = Some (runtime_record nat "192.0.2.10" sample_system_information 0
                     {| smart_charging := Some PURE_SOLAR |} sample_versions)).
Proof.
  split.
  - apply (select_option_failure_propagates nat (sample_entity "peblar" nat)
             "turbo" (sample_env nat 0)
             (sample_world "peblar" "mac" "host" "password" nat 0)).
    + apply list_elem_of_here.
    + vm_compute. reflexivity.
    + vm_compute. reflexivity.
  - apply (select_option_failure_propagates nat (sample_entity "peblar" nat)
             "fast_solar").
    + apply list_elem_of_here.
    + vm_compute. reflexivity.
    + vm_compute. reflexivity.
Defined.

(** The unload of the sample entry after its setup. *)
Lemma unload_tears_down_forwarded_platforms_witness :
  exists w',
    async_unload_entry nat (sample_entry "host" "password") (sample_env nat 0)
      (sample_world "peblar" "mac" "host" "password" nat 0)
    = (Return true, w')
    /\ loaded_platforms nat w' = []
    /\ sessions nat w' = [{| cookie_jar_unsafe := true |}].
Proof.
  destruct (unload_tears_down_forwarded_platforms nat
              (sample_entry "host" "password") (sample_env nat 0)
              (sample_world "peblar" "mac" "host" "password" nat 0))
    as (w' & Hrun & _ & Hnone & Hsub & Hss & _).
  { intros p _. reflexivity. }
  exists w'. split; [exact Hrun|]. split; [|exact Hss].
  destruct (loaded_platforms nat w') as [|p ps]; [reflexivity|].
  exfalso. apply (Hnone p).
  - specialize (Hsub p (list_elem_of_here _ _)). exact Hsub.
  - apply list_elem_of_here.
Defined.

(** C9, as the specification words it, fails: after the sample setup, an
    unload whose teardown succeeds leaves the session of the setup
    open. *)
Lemma unload_leaves_session_open :
  ~ unload_as_specified nat (sample_entry "host" "password") (sample_env nat 0)
      (sample_world "peblar" "mac" "host" "password" nat 0).
Proof.
  intros Hspec.
  destruct Hspec as (w' & Hrun & _ & Hrel); [intros p _; reflexivity|].
  destruct (unload_run_ok nat
              (sample_entry "host" "password") (sample_env nat 0)
              (sample_world "peblar" "mac" "host" "password" nat 0))
    as (w'' & Hrun' & _ & _ & _ & Hss & _); [intros p _; reflexivity|].
  rewrite Hrun in Hrun'. injection Hrun' as <-.
  apply (Hrel {| cookie_jar_unsafe := true |}).
  - apply list_elem_of_here.
  - rewrite Hss. apply list_elem_of_here.
Qed.

(** ** Sample runs *)

(** In the sample run the user configuration finishes first and the meter
    last. *)
Example completion_order_sample :
  completion_order (finish_time nat (sample_env nat 0))
  = [UserConfig; Version; Meter].
Proof. reflexivity. Qed.

(** The select platform adds the sample entity. *)
Example select_setup_sample :
  (select_async_setup_entry "peblar" nat (sample_entry "host" "password")
     (sample_env nat 0)
     (sample_world "peblar" "mac" "host" "password" nat 0)).1
  = Return [sample_entity "peblar" nat].
Proof. vm_compute. reflexivity. Qed.

(** The sample setup returns, and its unload too. *)
Example setup_then_unload_sample :
  (async_setup_entry "peblar" "mac" "host" "password" nat
     (sample_entry "host" "password") (sample_env nat 0) (empty_world nat)).1
  = Return true
  /\ (async_unload_entry nat (sample_entry "host" "password") (sample_env nat 0)
        (sample_world "peblar" "mac" "host" "password" nat 0)).1
     = Return true.
Proof. split; vm_compute; reflexivity. Qed.

(** * The further properties on sample runs *)

(** An entry whose data has no host. *)
Lemma setup_without_host_witness :
  async_setup_entry "peblar" "mac" "host" "password" nat (entry_with {[ "password" := "secret" ]}) (sample_env nat 0) (empty_world nat)
  = (Raise (Exc_ KeyError "host"), (empty_world nat)).
Proof.
  apply (setup_without_host "peblar" "mac" "host" "password" nat). reflexivity.
Defined.

(** An entry whose data has a host and no password. *)
Lemma setup_without_password_witness :
  exists w',
    async_setup_entry "peblar" "mac" "host" "password" nat (entry_with {[ "host" := "192.0.2.10" ]}) (sample_env nat 0) (empty_world nat)
    = (Raise (Exc_ KeyError "password"), w')
    /\ sessions nat w' = [{| cookie_jar_unsafe := true |}]
    /\ runtime_data nat w' = None.
Proof.
  destruct (setup_without_password "peblar" "mac" "host" "password" nat
              (entry_with {[ "host" := "192.0.2.10" ]})
                (sample_env nat 0) (empty_world nat)
              "192.0.2.10")
    as (w' & Hrun & _ & Hss & Hrd & _); [reflexivity | reflexivity |].
  exists w'. split; [exact Hrun|]. split; [exact Hss | exact Hrd].
Defined.

(** A login that is cancelled, and a login the charger answers with an
    unexpected response. *)
Lemma setup_wraps_vendor_errors_only_witness :
  (async_setup_entry "peblar" "mac" "host" "password" nat
    (sample_entry "host" "password")
     (connect_env nat 0 (Raise (Exc_ Exception "cancelled"))
        (Return sample_system_information) (Return tt)) (empty_world nat)).1
  = Raise (Exc_ Exception "cancelled")
  /\ (exists c msg,
        (async_setup_entry "peblar" "mac" "host" "password" nat
          (sample_entry "host" "password")
           (connect_env nat 0 (Raise (Exc_ PeblarError "unexpected response"))
              (Return sample_system_information) (Return tt))
                (empty_world nat)).1
        = Raise (ExcFrom c msg (Exc_ PeblarError "unexpected response"))
        /\ (c = ConfigEntryNotReady \/ c = ConfigEntryAuthFailed)
        /\ (c = ConfigEntryAuthFailed
            <-> exc_class (Exc_ PeblarError "unexpected response")
                = PeblarAuthenticationError)).
Proof.
  split.
  - apply (setup_wraps_vendor_errors_only "peblar" "mac" "host" "password" nat (sample_entry "host" "password") _ (empty_world nat)
             "192.0.2.10" "secret" (Exc_ Exception "cancelled"));
      reflexivity.
  - apply (setup_wraps_vendor_errors_only "peblar" "mac" "host" "password" nat (sample_entry "host" "password") _ (empty_world nat)
             "192.0.2.10" "secret" (Exc_ PeblarError "unexpected response"));
      reflexivity.
Defined.

(** A login with a bad password, and a REST API that cannot be enabled. *)
Lemma setup_stops_at_first_failure_witness :
  async_setup_entry "peblar" "mac" "host" "password" nat
    (sample_entry "host" "password")
    (connect_env nat 0 (Raise (Exc_ PeblarAuthenticationError "bad password"))
       (Return sample_system_information) (Return tt)) (empty_world nat)
  = (Raise (ExcFrom ConfigEntryAuthFailed ""
              (Exc_ PeblarAuthenticationError "bad password")),
     early_world nat
       [ EvCreateSession {| cookie_jar_unsafe := true |}; EvLogin
         {| host := "192.0.2.10"; session := {| cookie_jar_unsafe :=
           true |} |} "secret" ]
       [{| cookie_jar_unsafe := true |}] (empty_world nat))
  /\ async_setup_entry "peblar" "mac" "host" "password" nat
    (sample_entry "host" "password")
       (connect_env nat 0 (Return tt) (Return sample_system_information)
          (Raise (Exc_ PeblarConnectionError "timed out"))) (empty_world nat)
     = (Raise (ExcFrom ConfigEntryNotReady "Could not connect to Peblar charger"
                 (Exc_ PeblarConnectionError "timed out")),
        early_world nat
          [ EvCreateSession {| cookie_jar_unsafe := true |}; EvLogin
            {| host := "192.0.2.10"; session := {| cookie_jar_unsafe :=
              true |} |} "secret";
            EvSystemInformation
              {| host := "192.0.2.10"; session := {| cookie_jar_unsafe :=
                true |} |};
            EvRestApi
              {| host := "192.0.2.10"; session := {| cookie_jar_unsafe :=
                true |} |} true READ_WRITE ]
          [{| cookie_jar_unsafe := true |}] (empty_world nat)).
Proof.
  split.
  - apply (proj1 (setup_stops_at_first_failure "peblar" "mac" "host" "password" nat (sample_entry "host" "password") _ (empty_world nat)
                    "192.0.2.10" "secret" eq_refl eq_refl)
             (Exc_ PeblarAuthenticationError "bad password")).
    reflexivity.
  - apply (proj2 (proj2 (setup_stops_at_first_failure "peblar" "mac" "host" "password" nat (sample_entry "host" "password") _ (empty_world nat)
                           "192.0.2.10" "secret" eq_refl eq_refl))
             sample_system_information
             (Exc_ PeblarConnectionError "timed out"));
      reflexivity.
Defined.

(** The calls of the sample setup. *)
Lemma setup_calls_use_entry_data_witness :
  exists evs,
    trace nat (sample_world "peblar" "mac" "host" "password" nat 0) = evs
    /\ List.filter is_login evs = [EvLogin
      {| host := "192.0.2.10"; session := {| cookie_jar_unsafe :=
        true |} |} "secret"]
    /\ List.filter is_rest_api evs = [EvRestApi
      {| host := "192.0.2.10"; session := {| cookie_jar_unsafe :=
        true |} |} true READ_WRITE].
Proof.
  destruct (setup_calls_use_entry_data "peblar" "mac" "host" "password" nat (sample_entry "host" "password") (sample_env nat 0) (empty_world nat) true (sample_world "peblar" "mac" "host" "password" nat 0))
    as (h & pw & evs & Hh & Hpw & Htr & _ & Hlogin & Hapi).
  { vm_compute. reflexivity. }
  vm_compute in Hh. injection Hh as <-.
  vm_compute in Hpw. injection Hpw as <-.
  exists evs. split; [exact Htr|]. split; [exact Hlogin | exact Hapi].
Defined.

(** The runtime data of the sample setup. *)
Lemma setup_stores_fetched_data_witness :
  exists rd,
    runtime_data nat (sample_world "peblar" "mac" "host" "password" nat 0)
      = Some rd
    /\ system_information nat rd = sample_system_information
    /\ data (user_configuraton_coordinator nat rd)
       = Some {| smart_charging := Some PURE_SOLAR |}
    /\ data (data_coordinator nat rd) = Some 0.
Proof.
  destruct (setup_stores_fetched_data "peblar" "mac" "host" "password" nat (sample_entry "host" "password") (sample_env nat 0) (empty_world nat) true (sample_world "peblar" "mac" "host" "password" nat 0))
    as (rd & h & si & m & u & v & Hrd & _ & Hsi & Hm & Hu & _ & Hrsi & Hdm
        & Hdu & _).
  { vm_compute. reflexivity. }
  injection Hsi as <-. injection Hm as <-. injection Hu as <-.
  exists rd. split; [exact Hrd|]. split; [exact Hrsi|].
  split; [exact Hdu | exact Hdm].
Defined.

(** The device record of the sample setup. *)
Lemma device_record_fields_witness :
  exists d,
    device_registry nat (sample_world "peblar" "mac" "host" "password" nat 0)
      = [d]
    /\ configuration_url d = "http://192.0.2.10"
    /\ manufacturer d = "Peblar"
    /\ serial_number d = "ABC123"
    /\ sw_version d = Some "1.6.1".
Proof.
  destruct (device_record_fields "peblar" "mac" "host" "password" nat (sample_entry "host" "password") (sample_env nat 0) (empty_world nat) true (sample_world "peblar" "mac" "host" "password" nat 0))
    as (d & h & si & v & Hreg & Hh & Hsi & Hv & _ & Hurl & Hman & _ & _ & _
        & Hser & Hsw).
  { vm_compute. reflexivity. }
  vm_compute in Hh. injection Hh as <-.
  injection Hsi as <-. injection Hv as <-.
  exists d. split; [exact Hreg|]. split; [exact Hurl|]. split; [exact Hman|].
  split; [exact Hser | exact Hsw].
Defined.

(** The sample charger, and a charger that reports one MAC address for
    both interfaces. *)
Lemma device_connections_size_witness :
  (exists d,
     device_registry nat
       (sample_world "peblar" "mac" "host" "password" nat 0)
         = [d] /\ size (connections d) = 2)
  /\ (exists d,
        device_registry nat
          (async_setup_entry "peblar" "mac" "host" "password" nat
            (sample_entry "host" "password")
             (system_env nat 0
                {| ethernet_mac_address := "aa:bb:cc:dd:ee:ff";
                   wlan_mac_address := "aa:bb:cc:dd:ee:ff";
                   product_serial_number := "ABC123";
                   product_vendor_name := "Peblar";
                   product_number := "6004-2300-8002";
                   product_model_name := "WLAC1-H11R0WE0ICR00" |})
             (empty_world nat)).2 = [d]
        /\ size (connections d) = 1).
Proof.
  split.
  - destruct (device_connections_size "peblar" "mac" "host" "password" nat (sample_entry "host" "password") (sample_env nat 0) (empty_world nat) true (sample_world "peblar" "mac" "host" "password" nat 0))
      as (si & d & Hsi & Hreg & _ & Hne).
    { vm_compute. reflexivity. }
    injection Hsi as <-.
    exists d. split; [exact Hreg|]. apply Hne. discriminate.
  - destruct (device_connections_size "peblar" "mac" "host" "password" nat (sample_entry "host" "password")
                (system_env nat 0
                   {| ethernet_mac_address := "aa:bb:cc:dd:ee:ff";
                      wlan_mac_address := "aa:bb:cc:dd:ee:ff";
                      product_serial_number := "ABC123";
                      product_vendor_name := "Peblar";
                      product_number := "6004-2300-8002";
                      product_model_name := "WLAC1-H11R0WE0ICR00" |})
                (empty_world nat) true
                (async_setup_entry "peblar" "mac" "host" "password" nat (sample_entry "host" "password")
                   (system_env nat 0
                      {| ethernet_mac_address := "aa:bb:cc:dd:ee:ff";
                         wlan_mac_address := "aa:bb:cc:dd:ee:ff";
                         product_serial_number := "ABC123";
                         product_vendor_name := "Peblar";
                         product_number := "6004-2300-8002";
                         product_model_name := "WLAC1-H11R0WE0ICR00" |})
                   (empty_world nat)).2)
      as (si & d & Hsi & Hreg & Heq & _).
    { vm_compute. reflexivity. }
    injection Hsi as <-.
    exists d. split; [exact Hreg|]. apply Heq. reflexivity.
Defined.



(** An unload in which the teardown of the update platform answers that it
    failed. *)
Lemma unload_returns_teardown_answer_witness :
  exists w',
    async_unload_entry nat (sample_entry "host" "password")
      (host_env nat 0 (Return tt)
         (fun p => Return (negb (bool_decide (p = UPDATE)))))
           (sample_world "peblar" "mac" "host" "password" nat 0)
    = (Return false, w')
    /\ (UPDATE ∈ loaded_platforms nat w')
    /\ (SELECT ∉ loaded_platforms nat w')
    /\ runtime_data nat w' = runtime_data nat
      (sample_world "peblar" "mac" "host" "password" nat 0).
Proof.
  destruct (unload_returns_teardown_answer nat (sample_entry "host" "password")
              (host_env nat 0 (Return tt)
                 (fun p => Return (negb (bool_decide (p
                   = UPDATE)))))
                     (sample_world "peblar" "mac" "host" "password" nat 0))
    as (w' & Hrun & _ & Hloaded & Hrd & _).
  { intros p _. by eexists. }
  exists w'. split; [exact Hrun|]. split; [|split; [|exact Hrd]].
  - apply Hloaded. split.
    + replace (loaded_platforms nat
      (sample_world "peblar" "mac" "host" "password" nat 0)) with PLATFORMS
        by (vm_compute; reflexivity).
      do 6 apply list_elem_of_further. apply list_elem_of_here.
    + intros [_ Hok]. discriminate Hok.
  - intros Hin. apply Hloaded in Hin as [_ Hnot]. apply Hnot. split.
    + do 3 apply list_elem_of_further. apply list_elem_of_here.
    + reflexivity.
Defined.

(** The sample setup followed by the sample unload. *)
Lemma setup_then_unload_witness :
  exists w2,
    async_unload_entry nat (sample_entry "host" "password")
      (sample_env nat 0)
        (sample_world "peblar" "mac" "host" "password" nat 0)
          = (Return true, w2)
    /\ (forall q, q ∉ loaded_platforms nat w2)
    /\ is_Some (runtime_data nat w2)
    /\ length (device_registry nat w2) = 1.
Proof.
  destruct (setup_then_unload "peblar" "mac" "host" "password" nat
    (sample_entry "host" "password") (sample_env nat 0)
      (sample_env nat 0) (empty_world nat) true
        (sample_world "peblar" "mac" "host" "password" nat 0))
    as (w2 & Hrun & Hloaded & Hsome & _ & _ & Hlen).
  { vm_compute. reflexivity. }
  { intros p _. reflexivity. }
  exists w2. split; [exact Hrun|]. split; [|split; [exact Hsome | exact Hlen]].
  intros q Hq. apply Hloaded in Hq as [Hq _]. by apply elem_of_nil in Hq.
Defined.

(** A listed option and a string that is no option. *)
Lemma select_fn_accepts_listed_options_witness :
  (exists m,
     value m = "scheduled"
     /\ select_fn nat (entity_description nat
       (sample_entity "peblar" nat))
         {| host := "192.0.2.10"; session := {| cookie_jar_unsafe :=
           true |} |} "scheduled" (sample_env nat 0) (empty_world nat)
        = (smart_charging_result nat (sample_env nat 0) m,
           add_trace nat [EvSmartCharging
             {| host := "192.0.2.10"; session := {| cookie_jar_unsafe :=
               true |} |} m] (empty_world nat)))
  /\ select_fn nat (entity_description nat (sample_entity "peblar" nat))
    {| host := "192.0.2.10"; session := {| cookie_jar_unsafe :=
      true |} |} "turbo" (sample_env nat 0) (empty_world nat)
     = (Raise (Exc_ ValueError "turbo"), (empty_world nat)).
Proof.
  split.
  - apply (proj1 (select_fn_accepts_listed_options nat
    (entity_description nat (sample_entity "peblar" nat))
      {| host := "192.0.2.10"; session := {| cookie_jar_unsafe := true |} |}
                    "scheduled" (sample_env nat 0)
                      (empty_world nat) (list_elem_of_here _ _))).
    do 3 apply list_elem_of_further. apply list_elem_of_here.
  - apply (proj2 (select_fn_accepts_listed_options nat
    (entity_description nat (sample_entity "peblar" nat))
      {| host := "192.0.2.10"; session := {| cookie_jar_unsafe := true |} |}
                    "turbo" (sample_env nat 0)
                      (empty_world nat) (list_elem_of_here _ _))).
    apply (bool_decide_unpack _). vm_compute. exact I.
Defined.

(** A snapshot in fast-solar mode. *)
Lemma current_fn_among_options_witness :
  "fast_solar" ∈ options nat (entity_description nat
    (sample_entity "peblar" nat))
  /\ exists m,
       smart_charging {| smart_charging := Some FAST_SOLAR |} = Some m
       /\ SmartChargingMode_lookup "fast_solar" = Some m.
Proof.
  apply (current_fn_among_options nat (entity_description nat
    (sample_entity "peblar" nat))
           {| smart_charging := Some FAST_SOLAR |} "fast_solar").
  - apply list_elem_of_here.
  - reflexivity.
Defined.

(** The select platform after the sample setup. *)
Lemma select_entities_attach_to_device_witness :
  exists d es,
    device_registry nat (sample_world "peblar" "mac" "host" "password" nat 0)
      = device_registry nat (empty_world nat) ++ [d]
    /\ select_async_setup_entry "peblar" nat
      (sample_entry "host" "password") (sample_env nat 0)
        (sample_world "peblar" "mac" "host" "password" nat 0)
       = (Return es, (sample_world "peblar" "mac" "host" "password" nat 0))
    /\ entity_description nat <$> es = DESCRIPTIONS nat
    /\ Forall (fun self =>
                 _attr_device_info nat self = identifiers d
                 /\ _attr_unique_id nat self
                    = format_optional (unique_id
                      (sample_entry "host" "password")) +:+ "-"
                      +:+ key nat (entity_description nat self))
         es.
Proof.
  apply (select_entities_attach_to_device "peblar" "mac" "host" "password" nat (sample_entry "host" "password") (sample_env nat 0) (sample_env nat 0) (empty_world nat) true).
  vm_compute. reflexivity.
Defined.


(** Three writes after the sample setup: one that succeeds, one with a
    string that is no option, one that the charger rejects. *)
Lemma select_options_keep_snapshot_witness :
  exists o,
    forall env,
      (current_option nat (sample_entity "peblar" nat) env
         (select_options nat (sample_entity "peblar" nat)
            [ ("fast_solar", (sample_env nat 0));
              ("turbo", (sample_env nat 0));
              ("scheduled",
               fetch_env nat 0 (Raise (Exc_ PeblarConnectionError "timed out"))
                 (Return sample_versions) (Raise (Exc_ PeblarError "rejected"))) ]
            (sample_world "peblar" "mac" "host" "password" nat 0))).1
      = Return o.
Proof.
  destruct (select_options_keep_snapshot nat (sample_entity "peblar" nat)
              [ ("fast_solar", (sample_env nat 0));
                ("turbo", (sample_env nat 0));
                ("scheduled",
                 fetch_env nat 0 (Raise (Exc_ PeblarConnectionError "timed out"))
                   (Return sample_versions) (Raise (Exc_ PeblarError "rejected"))) ]
              (sample_world "peblar" "mac" "host" "password" nat 0)
              (runtime_record nat "192.0.2.10" sample_system_information 0
                 {| smart_charging := Some PURE_SOLAR |} sample_versions)
              {| smart_charging := Some PURE_SOLAR |})
    as (rd' & x' & _ & _ & _ & _ & _ & _ & _ & _ & _ & Hcur).
  { apply list_elem_of_here. }
  { vm_compute. reflexivity. }
  { reflexivity. }
  exists (value <$> smart_charging x'). intros env. by rewrite Hcur.
Defined.

(** A write the charger accepts, followed by a fetch that times out. *)
Lemma select_option_with_failed_refresh_witness :
  exists w',
    async_select_option nat (sample_entity "peblar" nat) "fast_solar"
      (fetch_env nat 0 (Raise (Exc_ PeblarConnectionError "timed out"))
         (Return sample_versions) (Return tt))
           (sample_world "peblar" "mac" "host" "password" nat 0)
    = (Return tt, w')
    /\ (current_option nat (sample_entity "peblar" nat)
      (sample_env nat 0) w').1 = Return (Some "pure_solar").
Proof.
  destruct (select_option_with_failed_refresh nat
    (sample_entity "peblar" nat) "fast_solar"
              (fetch_env nat 0 (Raise (Exc_ PeblarConnectionError "timed out"))
                 (Return sample_versions) (Return tt))
                   (sample_world "peblar" "mac" "host" "password" nat 0)
              (runtime_record nat "192.0.2.10" sample_system_information 0
                 {| smart_charging := Some PURE_SOLAR |} sample_versions)
              FAST_SOLAR (Exc_ PeblarConnectionError "timed out"))
    as (w' & rd' & Hrun & _ & _ & _ & _ & Hcur); try reflexivity.
  { apply list_elem_of_here. }
  exists w'. split; [exact Hrun|].
  rewrite Hcur. vm_compute. reflexivity.
Defined.

(** A write after the sample setup. *)
Lemma select_option_calls_entry_host_witness :
  exists m,
    value m = "scheduled"
    /\ trace nat
         (async_select_option nat
           (sample_entity "peblar" nat) "scheduled"
             (sample_env nat 0)
               (sample_world "peblar" "mac" "host" "password" nat 0)).2
       = trace nat (sample_world "peblar" "mac" "host" "password" nat 0)
         ++ [EvSmartCharging
           {| host := "192.0.2.10"; session := {| cookie_jar_unsafe :=
             true |} |} m; EvRequestRefresh UserConfig].
Proof.
  destruct (select_option_calls_entry_host "peblar" "mac" "host" "password" nat (sample_entry "host" "password") (sample_env nat 0) (sample_env nat 0) (empty_world nat) true
              (sample_world "peblar" "mac" "host" "password" nat 0) (sample_entity "peblar" nat) "scheduled"
              (async_select_option nat
                (sample_entity "peblar" nat) "scheduled"
                  (sample_env nat 0)
                    (sample_world "peblar" "mac" "host" "password" nat 0)).2)
    as (h & m & Hh & Hm & Htr).
  { vm_compute. reflexivity. }
  { apply list_elem_of_here. }
  { vm_compute. reflexivity. }
  vm_compute in Hh. injection Hh as <-.
  exists m. split; [exact Hm | exact Htr].
Defined.
